(** * Defter: the rich-text / markdown synchronisation core

    A shallow embedding of [src/app/page.tsx] (the editor page: math
    rendering, inline/block classification of AI replacements, selection
    metadata, the replacement applicator with its one-level undo, and the
    edit session) and of the [/api/ai] route handler.

    JavaScript strings are [string]s, one [ascii] per UTF-16 code unit
    (code units below 256).  The browser (DOM, selection, [execCommand]) and
    the libraries [marked], [katex], [turndown] and the OpenAI client are
    not part of the repository: they are the fields of [Platform] and the
    arguments of [POST]. *)

From Stdlib Require Import Bool Arith ZArith QArith Lia List.
From Stdlib Require Import Ascii String DecimalString.
From Stdlib Require Import Uint63 Floats.
Import ListNotations.

Local Open Scope string_scope.
Local Open Scope nat_scope.

(** ** JavaScript string primitives *)

Module Js.

Definition LF : ascii := "010"%char.
Definition dollar : ascii := "$"%char.
Definition backslash : ascii := "\"%char.

(** The double-quote character, for markup attributes. *)
Definition dq : string := String (ascii_of_nat 34) EmptyString.

(** [\s] of a regular expression and the white space removed by
    [String.prototype.trim]: TAB, LF, VT, FF, CR, SP and NBSP. *)
Definition is_space (c : ascii) : bool :=
  let n := nat_of_ascii c in
  ((9 <=? n) && (n <=? 13)) || (n =? 32) || (n =? 160).

Fixpoint trimStart (s : string) : string :=
  match s with
  | String c s' => if is_space c then trimStart s' else s
  | EmptyString => EmptyString
  end.

(** [trimEnd] drops the trailing white space: a character is kept when
    something that is kept follows it, or when it is not white space. *)
Fixpoint trimEnd (s : string) : string :=
  match s with
  | String c s' =>
      match trimEnd s' with
      | EmptyString => if is_space c then EmptyString else String c EmptyString
      | t => String c t
      end
  | EmptyString => EmptyString
  end.

Definition trim (s : string) : string := trimEnd (trimStart s).

(** [hay.includes(needle)] *)
Fixpoint includes (needle hay : string) : bool :=
  prefix needle hay ||
  match hay with
  | String _ hay' => includes needle hay'
  | EmptyString => false
  end.

(** [hay.endsWith(needle)] *)
Definition endsWith (needle hay : string) : bool :=
  (length needle <=? length hay) &&
  (substring (length hay - length needle) (length needle) hay =? needle)%string.

(** [s.slice(a, b)] for non-negative indices: both are clamped to the
    length and an empty string results when [b <= a]. *)
Definition slice (a b : nat) (s : string) : string :=
  let a' := Nat.min a (length s) in
  let b' := Nat.min b (length s) in
  substring a' (b' - a') s.

(** Every character of [s] satisfies [p]. *)
Fixpoint every (p : ascii -> bool) (s : string) : bool :=
  match s with
  | String c s' => p c && every p s'
  | EmptyString => true
  end.

(** [s || e] with [e] the empty string, on a value that may be
    [undefined]. *)
Definition or_empty (s : option string) : string :=
  match s with Some t => t | None => EmptyString end.

(** Truthiness of a string that may be [undefined]: defined and not empty. *)
Definition truthy (s : option string) : bool :=
  match s with Some (String _ _) => true | _ => false end.

End Js.

(** ** IEEE 754 binary64 arithmetic, as far as [percentThroughDocument] needs it

    A finite non-negative double is the rational it denotes.  [round64] is
    round-to-nearest, ties-to-even, to a 53-bit significand (the results
    here lie far inside the normal range). *)

Module Float.

Local Open Scope Z_scope.

(** [floor (log2 (a / b))] for positive [a], [b]. *)
Definition log2_floor (a b : Z) : Z :=
  let k := Z.log2 a - Z.log2 b in
  if 0 <=? k
  then (if b * 2 ^ k <=? a then k else k - 1)
  else (if b <=? a * 2 ^ (- k) then k else k - 1).

(** Nearest integer to [n / d] ([0 < d]), ties to the even one. *)
Definition round_half_even (n d : Z) : Z :=
  let q := n / d in
  let r := n mod d in
  if 2 * r <? d then q
  else if d <? 2 * r then q + 1
  else if Z.even q then q else q + 1.

(** Nearest integer to [n / d] ([0 < d]), ties to the larger one. *)
Definition round_half_up (n d : Z) : Z := (2 * n + d) / (2 * d).

(** The double nearest to [a / b]. *)
Definition round64 (a b : Z) : Q :=
  if a <=? 0 then 0%Q
  else
    let sh := 52 - log2_floor a b in
    if 0 <=? sh
    then Qmake (round_half_even (a * 2 ^ sh) b) (Z.to_pos (2 ^ sh))
    else inject_Z (round_half_even a (b * 2 ^ (- sh)) * 2 ^ (- sh)).

(** [x / y] on two integers that are doubles themselves. *)
Definition div (x y : Z) : Q := round64 x y.

(** [x.toFixed(3)]: the integer [n] for which [n / 1000 - x] is closest to
    zero, the larger one on a tie; the result string prints [n / 1000]
    with three decimals. *)
Definition toFixed3 (x : Q) : Z :=
  round_half_up (Qnum x * 1000) (Zpos (Qden x)).

(** [Number(s)] on the decimal string of [n / 1000]. *)
Definition Number_of_fixed3 (n : Z) : Q := round64 n 1000.

(** The rational denoted by a finite value of the primitive floats, and
    the comparison of [round64] with their division on two integers. *)
Definition value_of_spec_float (f : spec_float) : Q :=
  match f with
  | S754_finite false m e =>
      if 0 <=? e then inject_Z (Zpos m * 2 ^ e)
      else Qmake (Zpos m) (Z.to_pos (2 ^ (- e)))
  | _ => 0%Q
  end.

Definition agrees_with_primitive_division (a b : Z) : bool :=
  Qeq_bool
    (value_of_spec_float
       (Prim2SF (PrimFloat.div (PrimFloat.of_uint63 (Uint63.of_Z a))
                               (PrimFloat.of_uint63 (Uint63.of_Z b)))))
    (round64 a b).

(** The rounding of the specification, [round(num / den, 3)]: [n / 1000] is
    a multiple of a thousandth nearest to the exact quotient. *)
Definition nearest_thousandth (num den n : Z) : Prop :=
  Z.abs (2 * (n * den - 1000 * num)) <= den.

End Float.

(** ** The editor page, [src/app/page.tsx] *)

Module Page.

Import Js.

(** *** Exceptions

    A computation that may throw is an [option]: [None] is a thrown
    exception, caught by the nearest [try]/[catch]. *)

Definition bind {A B : Type} (m : option A) (k : A -> option B) : option B :=
  match m with
  | Some a => k a
  | None => None
  end.

Notation "x <- m ;; k" := (bind m (fun x => k))
  (at level 61, m at next level, right associativity).

(** *** Collaborators outside the repository *)

Record KatexOptions := {
  throwOnError : bool;
  displayMode : bool;
}.

(** The browser and the three libraries the page calls.  A [Dom] is the
    content-editable root together with its subtree; a [Range] is a DOM
    range, read against the tree it points into. *)
Class Platform := {
  Dom : Type;
  Range : Type;
  (** [element.innerHTML], read and assigned *)
  innerHTML : Dom -> string;
  set_innerHTML : string -> Dom -> Dom;
  (** [element.innerText] *)
  innerText : Dom -> string;
  (** [range.toString()] *)
  range_toString : Dom -> Range -> string;
  (** [toString()] of the clone of the range that was moved to select the
      contents of the root and then ended at the start of the range
      ([selectNodeContents], [setEnd]) *)
  before_toString : Dom -> Range -> string;
  (** [root.contains(range.commonAncestorContainer)] *)
  contains_range : Dom -> Range -> bool;
  (** [selection.isCollapsed] of the selection holding the range *)
  isCollapsed : Range -> bool;
  (** [removeAllRanges(); addRange(range);
      document.execCommand("insertHTML", false, html)] *)
  insertHTML : Range -> string -> Dom -> Dom;
  (** [marked.parse] under the options [{ gfm: true, breaks: true }] *)
  marked_parse : string -> string;
  (** [katex.renderToString]; [None] when the call throws *)
  katex_renderToString : string -> KatexOptions -> option string;
  (** [turndownService.turndown], ATX headings, fenced code, [<u>] kept *)
  turndown : string -> string;
}.

(** *** Data *)

Record SelectionMeta := {
  start : nat;
  end_ : nat;
  length_ : nat;
  percentThroughDocument : Q;
  contextBefore : string;
  contextAfter : string;
}.

Record AiResponse := {
  replacementText : option string;
}.

(** The actions a toast can carry; the only closure the page ever stores
    in [onAction] is the undo of an AI edit. *)
Inductive ToastAction := UndoAiEdit.

Record ToastState := {
  message : string;
  actionLabel : option string;
  onAction : option ToastAction;
}.

(** [aiUndoRef.current] *)
Record UndoSnapshot := {
  html : string;
  markdown_ : string;
}.

(** The body of the request to [/api/ai]. *)
Record AiRequest := {
  documentText : string;
  documentMarkdown : string;
  selectedText : string;
  userPrompt : string;
  selection : SelectionMeta;
  selectionLength : nat;
}.

(** What [await fetch(...)] followed by [await response.json()] can
    produce. *)
Inductive FetchOutcome :=
| FetchRejected
| FetchResponse (ok : bool) (json : option AiResponse).

(** *** The math expositor, [renderMath] *)

(** Index of the first occurrence of two dollars in a row. *)
Fixpoint find_dollars (s : string) : option nat :=
  match s with
  | String a s' =>
      match s' with
      | String b _ =>
          if (Ascii.eqb a dollar && Ascii.eqb b dollar)%bool then Some 0
          else option_map S (find_dollars s')
      | EmptyString => None
      end
  | EmptyString => None
  end.

(** A match of [/\$\$([\s\S]+?)\$\$/] anchored at the head of [s]: the
    captured expression and the length of the whole match.  The lazy
    quantifier takes one character and then stops at the first pair of
    dollars. *)
Definition block_match (s : string) : option (string * nat) :=
  match s with
  | String a (String b (String c rest)) =>
      if (Ascii.eqb a dollar && Ascii.eqb b dollar)%bool then
        match find_dollars rest with
        | Some k => Some (String c (substring 0 k rest), k + 5)
        | None => None
        end
      else None
  | _ => None
  end.

(** Reads [[^\$\n]+?] followed by the closing dollar: the characters up
    to the first dollar, none of them a line feed. *)
Fixpoint inline_expr (s : string) : option string :=
  match s with
  | String c s' =>
      if Ascii.eqb c dollar then Some EmptyString
      else if Ascii.eqb c LF then None
      else option_map (String c) (inline_expr s')
  | EmptyString => None
  end.

(** [\$([^\$\n]+?)\$] at the head of [s]: the expression, which is not
    empty, and the length of this part of the match. *)
Definition inline_body (s : string) : option (string * nat) :=
  match s with
  | String a s' =>
      if Ascii.eqb a dollar then
        match inline_expr s' with
        | Some (String c e) => Some (String c e, length e + 3)
        | _ => None
        end
      else None
  | EmptyString => None
  end.

(** A match of [/(^|[^\\])\$([^\$\n]+?)\$/] anchored at the head of [s]:
    prefix, expression, length.  [bol] tells whether [s] is the whole
    input, the only place where [^] matches; the second alternative
    consumes one character that is not a backslash. *)
Definition inline_match (bol : bool) (s : string)
  : option (string * string * nat) :=
  match (if bol then inline_body s else None) with
  | Some (expr, n) => Some (EmptyString, expr, n)
  | None =>
      match s with
      | String c s' =>
          if Ascii.eqb c backslash then None
          else
            match inline_body s' with
            | Some (expr, n) => Some (String c EmptyString, expr, S n)
            | None => None
            end
      | EmptyString => None
      end
  end.

(** [s.replace(/\$\$([\s\S]+?)\$\$/g, (_, expr) => f(expr))]: the matches
    are found from left to right and do not overlap; [skip] counts the
    characters of the current match still to be passed over. *)
Fixpoint replace_block (f : string -> option string) (skip : nat) (s : string)
  : option string :=
  match s with
  | String c s' =>
      match skip with
      | S k => replace_block f k s'
      | O =>
          match block_match s with
          | Some (expr, n) =>
              r <- f expr ;;
              rest <- replace_block f (n - 1) s' ;;
              Some (r ++ rest)
          | None =>
              rest <- replace_block f 0 s' ;;
              Some (String c rest)
          end
      end
  | EmptyString => Some EmptyString
  end.

(** [s.replace(/(^|[^\\])\$([^\$\n]+?)\$/g, (_, prefix, expr) =>
    f(prefix, expr))] *)
Fixpoint replace_inline (f : string -> string -> option string)
  (bol : bool) (skip : nat) (s : string) : option string :=
  match s with
  | String c s' =>
      match skip with
      | S k => replace_inline f false k s'
      | O =>
          match inline_match bol s with
          | Some (pre, expr, n) =>
              r <- f pre expr ;;
              rest <- replace_inline f false (n - 1) s' ;;
              Some (r ++ rest)
          | None =>
              rest <- replace_inline f false 0 s' ;;
              Some (String c rest)
          end
      end
  | EmptyString => Some EmptyString
  end.

(** [s.replace(/\n+/g, " ")] *)
Fixpoint collapse_newlines (s : string) : string :=
  match s with
  | String c s' =>
      if Ascii.eqb c LF then
        match s' with
        | String c' _ =>
            if Ascii.eqb c' LF then collapse_newlines s'
            else String " "%char (collapse_newlines s')
        | EmptyString => String " "%char EmptyString
        end
      else String c (collapse_newlines s')
  | EmptyString => EmptyString
  end.

(** The first capture group of [html.match(re)] for the expression [re]
    that reads: start of input, [<p>], a greedy group of any characters,
    [</p>], white space, end of input.  The closing tag that the greedy
    group stops at is the one that only white space follows, so it is
    found after the trailing white space is dropped. *)
Definition match_paragraph (html : string) : option string :=
  let body := trimEnd html in
  if (prefix "<p>" body && endsWith "</p>" body && (7 <=? length body))%bool
  then Some (substring 3 (length body - 7) body)
  else None.

(** *** Texts made of spans

    A text written as a list of spans, each with the text before it, and a
    rest without delimiters; and what the replacement of every span by [f]
    makes of it.  These state what [replace_block] and [replace_inline]
    compute on a whole text. *)








Section Editor.

Context {P : Platform}.

Definition math_block (expr : string) : option string :=
  m <- katex_renderToString (trim expr)
         {| throwOnError := false; displayMode := true |} ;;
  Some ("<div class=" ++ dq ++ "math-block" ++ dq ++ ">" ++ m ++ "</div>").

Definition math_inline (pre expr : string) : option string :=
  m <- katex_renderToString (trim expr)
         {| throwOnError := false; displayMode := false |} ;;
  Some (pre ++ "<span class=" ++ dq ++ "math-inline" ++ dq ++ ">" ++ m
            ++ "</span>").

(** The body of the [try] block of [renderMath]. *)
Definition renderMath_try (html : string) : option string :=
  block <- replace_block math_block 0 html ;;
  replace_inline math_inline true 0 block.

Definition renderMath (html : string) : string :=
  match renderMath_try html with
  | Some out => out
  | None => html
  end.

(** *** The inline/block classifier, [toInlineAwareHtml] *)

Definition toInlineAwareHtml (text : string) : string :=
  let trimmed := trim text in
  let html := marked_parse trimmed in
  let html :=
    if negb (includes (String LF (String LF EmptyString)) trimmed) then
      match match_paragraph html with
      | Some inner => collapse_newlines inner
      | None => html
      end
    else html in
  renderMath html.

(** *** Component state

    The refs ([editorRef], [selectionRangeRef], [aiUndoRef]) and the
    React state of [Home] that the edit session reads and writes.  The
    toolbar is kept by its [visible] flag; its screen position plays no
    part in what follows. *)

Record State := {
  editorRef : option Dom;
  selectionRangeRef : option Range;
  aiUndoRef : option UndoSnapshot;
  markdown : string;
  toolbar_visible : bool;
  aiPrompt : string;
  aiOpen : bool;
  aiLoading : bool;
  toast : option ToastState;
}.

Definition set_editor (d : Dom) (s : State) : State :=
  {| editorRef := Some d;
     selectionRangeRef := selectionRangeRef s;
     aiUndoRef := aiUndoRef s;
     markdown := markdown s;
     toolbar_visible := toolbar_visible s;
     aiPrompt := aiPrompt s;
     aiOpen := aiOpen s;
     aiLoading := aiLoading s;
     toast := toast s |}.

Definition set_selectionRange (r : Range) (s : State) : State :=
  {| editorRef := editorRef s;
     selectionRangeRef := Some r;
     aiUndoRef := aiUndoRef s;
     markdown := markdown s;
     toolbar_visible := toolbar_visible s;
     aiPrompt := aiPrompt s;
     aiOpen := aiOpen s;
     aiLoading := aiLoading s;
     toast := toast s |}.

Definition set_aiUndo (u : option UndoSnapshot) (s : State) : State :=
  {| editorRef := editorRef s;
     selectionRangeRef := selectionRangeRef s;
     aiUndoRef := u;
     markdown := markdown s;
     toolbar_visible := toolbar_visible s;
     aiPrompt := aiPrompt s;
     aiOpen := aiOpen s;
     aiLoading := aiLoading s;
     toast := toast s |}.

Definition setMarkdown (md : string) (s : State) : State :=
  {| editorRef := editorRef s;
     selectionRangeRef := selectionRangeRef s;
     aiUndoRef := aiUndoRef s;
     markdown := md;
     toolbar_visible := toolbar_visible s;
     aiPrompt := aiPrompt s;
     aiOpen := aiOpen s;
     aiLoading := aiLoading s;
     toast := toast s |}.

Definition setToolbarVisible (v : bool) (s : State) : State :=
  {| editorRef := editorRef s;
     selectionRangeRef := selectionRangeRef s;
     aiUndoRef := aiUndoRef s;
     markdown := markdown s;
     toolbar_visible := v;
     aiPrompt := aiPrompt s;
     aiOpen := aiOpen s;
     aiLoading := aiLoading s;
     toast := toast s |}.

Definition setAiPrompt (p : string) (s : State) : State :=
  {| editorRef := editorRef s;
     selectionRangeRef := selectionRangeRef s;
     aiUndoRef := aiUndoRef s;
     markdown := markdown s;
     toolbar_visible := toolbar_visible s;
     aiPrompt := p;
     aiOpen := aiOpen s;
     aiLoading := aiLoading s;
     toast := toast s |}.

Definition setAiOpen (b : bool) (s : State) : State :=
  {| editorRef := editorRef s;
     selectionRangeRef := selectionRangeRef s;
     aiUndoRef := aiUndoRef s;
     markdown := markdown s;
     toolbar_visible := toolbar_visible s;
     aiPrompt := aiPrompt s;
     aiOpen := b;
     aiLoading := aiLoading s;
     toast := toast s |}.

Definition setAiLoading (b : bool) (s : State) : State :=
  {| editorRef := editorRef s;
     selectionRangeRef := selectionRangeRef s;
     aiUndoRef := aiUndoRef s;
     markdown := markdown s;
     toolbar_visible := toolbar_visible s;
     aiPrompt := aiPrompt s;
     aiOpen := aiOpen s;
     aiLoading := b;
     toast := toast s |}.

Definition setToast (t : option ToastState) (s : State) : State :=
  {| editorRef := editorRef s;
     selectionRangeRef := selectionRangeRef s;
     aiUndoRef := aiUndoRef s;
     markdown := markdown s;
     toolbar_visible := toolbar_visible s;
     aiPrompt := aiPrompt s;
     aiOpen := aiOpen s;
     aiLoading := aiLoading s;
     toast := t |}.

(** *** Markdown from the editor *)

Definition updateMarkdownFromEditor (s : State) : State :=
  match editorRef s with
  | None => s
  | Some d => setMarkdown (turndown (innerHTML d)) s
  end.

Definition handleInput (s : State) : State := updateMarkdownFromEditor s.

(** The user edits the content: the browser changes the tree to [d] and
    fires the [input] event. *)
Definition userInput (d : Dom) (s : State) : State :=
  handleInput (set_editor d s).

(** *** The selection locator *)

(** [handleSelection], run on [selectionchange], [mouseup], [keyup] and
    [touchend].  [sel] is the first range of [window.getSelection()],
    [None] when there is no selection or it holds no range. *)
Definition handleSelection (sel : option Range) (s : State) : State :=
  match sel, editorRef s with
  | Some range, Some d =>
      if negb (contains_range d range) then setToolbarVisible false s
      else
        let s1 := set_selectionRange range s in
        if isCollapsed range then
          if aiOpen s1 then s1 else setToolbarVisible false s1
        else setToolbarVisible true s1
  | _, _ => setToolbarVisible false s
  end.

(** The [onContextMenu] handler of the editor section. *)
Definition handleContextMenu (sel : option Range) (s : State) : State :=
  match sel with
  | None => s
  | Some range => setToolbarVisible true (set_selectionRange range s)
  end.

Definition no_selection_toast : ToastState :=
  {| message := "Place the cursor or select text to ask AI.";
     actionLabel := None;
     onAction := None |}.

Definition openAiPrompt (sel : option Range) (s : State) : State :=
  let s1 :=
    match selectionRangeRef s, sel with
    | None, Some range => set_selectionRange range s
    | _, _ => s
    end in
  match selectionRangeRef s1 with
  | None => setToast (Some no_selection_toast) s1
  | Some _ => setToolbarVisible true (setAiOpen true s1)
  end.

Definition empty_meta : SelectionMeta :=
  {| start := 0;
     end_ := 0;
     length_ := 0;
     percentThroughDocument := 0%Q;
     contextBefore := EmptyString;
     contextAfter := EmptyString |}.

Definition getSelectionMeta (editor : option Dom) (range : Range)
  : SelectionMeta :=
  match editor with
  | None => empty_meta
  | Some d =>
      let plainText := innerText d in
      let start := length (before_toString d range) in
      let selected := range_toString d range in
      let end_ := start + length selected in
      let contextBefore := slice (Nat.max 0 (start - 500)) start plainText in
      let contextAfter :=
        slice end_ (Nat.min (length plainText) (end_ + 500)) plainText in
      let percentThroughDocument :=
        if length plainText =? 0 then 0%Q
        else Float.Number_of_fixed3
               (Float.toFixed3
                  (Float.div (Z.of_nat end_) (Z.of_nat (length plainText)))) in
      {| start := start;
         end_ := end_;
         length_ := length selected;
         percentThroughDocument := percentThroughDocument;
         contextBefore := contextBefore;
         contextAfter := contextAfter |}
  end.

(** *** The replacement applicator and its undo *)

Definition applied_toast : ToastState :=
  {| message := "AI edit applied.";
     actionLabel := Some "Undo";
     onAction := Some UndoAiEdit |}.

Definition failed_toast : ToastState :=
  {| message := "AI request failed. Try again.";
     actionLabel := None;
     onAction := None |}.

(** [applyAiReplacement] is a [useCallback] over [markdown]: the value
    of [markdown] it stores in the snapshot is the one of the render that
    created the callback, passed here as [markdown_closed]. *)
Definition applyAiReplacement (markdown_closed : string)
  (replacement : option string) (s : State) : State :=
  match editorRef s, selectionRangeRef s with
  | Some d, Some range =>
      let s1 :=
        set_aiUndo
          (Some {| html := innerHTML d; markdown_ := markdown_closed |}) s in
      let html := toInlineAwareHtml (or_empty replacement) in
      let s2 := set_editor (insertHTML range html d) s1 in
      let s3 := updateMarkdownFromEditor s2 in
      setToast (Some applied_toast) s3
  | _, _ => s
  end.

(** The closure stored as [onAction] of the toast of an applied edit. *)
Definition undoAiEdit (s : State) : State :=
  match editorRef s, aiUndoRef s with
  | Some d, Some snap =>
      let s1 := set_editor (set_innerHTML (html snap) d) s in
      let s2 := setMarkdown (markdown_ snap) s1 in
      let s3 := set_aiUndo None s2 in
      setToast None s3
  | _, _ => s
  end.

Definition run_action (a : ToastAction) (s : State) : State :=
  match a with
  | UndoAiEdit => undoAiEdit s
  end.

(** A click on the button of the toast; the button is rendered when the
    toast has both [onAction] and [actionLabel]. *)
Definition clickToastAction (s : State) : State :=
  match toast s with
  | Some {| actionLabel := Some _; onAction := Some a |} => run_action a s
  | _ => s
  end.

(** The timer of the auto-dismiss effect fires (6000 ms after a toast
    with an action was set, 4000 ms otherwise). *)
Definition toast_dismiss_delay (t : ToastState) : Z :=
  match onAction t with Some _ => 6000%Z | None => 4000%Z end.

Definition toastTimeout (s : State) : State := setToast None s.

(** The [mousedown] listener that is installed while the popover is open,
    for a click outside the popover. *)
Definition clickOutsidePopover (s : State) : State :=
  if aiOpen s then setToolbarVisible false (setAiOpen false s) else s.

(** *** The edit session, [submitAi]

    [submitAi] is asynchronous.  [submitAi_begin] is the part up to the
    [fetch]: it returns the request sent, or [None] when the guard
    closes the popover instead.  [submitAi_settle] is the part after the
    [await]s; it runs in the closure of the render in which the form was
    submitted, whose [markdown] is [markdown_closed]. *)

Definition submitAi_begin (s : State) : State * option AiRequest :=
  match selectionRangeRef s, editorRef s with
  | Some range, Some d =>
      match trim (aiPrompt s) with
      | EmptyString => (setAiOpen false s, None)
      | _ =>
          let selectedText := range_toString d range in
          let documentText := innerText d in
          let selectionMeta := getSelectionMeta (editorRef s) range in
          (setAiLoading true s,
           Some {| documentText := documentText;
                   documentMarkdown := markdown s;
                   selectedText := selectedText;
                   userPrompt := aiPrompt s;
                   selection := selectionMeta;
                   selectionLength := length selectedText |})
      end
  | _, _ => (setAiOpen false s, None)
  end.

Definition submitAi_settle (markdown_closed : string) (out : FetchOutcome)
  (s : State) : State :=
  let s1 :=
    match out with
    | FetchResponse true (Some data) =>
        applyAiReplacement markdown_closed (replacementText data) s
    | _ => setToast (Some failed_toast) s
    end in
  setAiPrompt EmptyString (setAiOpen false (setAiLoading false s1)).

(** A whole run of [submitAi] during which nothing else happens. *)
Definition submitAi (out : FetchOutcome) (s : State) : State :=
  match submitAi_begin s with
  | (s1, Some _) => submitAi_settle (markdown s) out s1
  | (s1, None) => s1
  end.

End Editor.

Arguments State : clear implicits.

End Page.

(** ** The route handler of [/api/ai] *)

Module Route.

Import Js.

(** The body of a response built with [NextResponse.json]. *)
Inductive Body :=
| ErrorBody (error : string)
| ReplacementBody (replacementText : string).

Record HttpResponse := {
  status : nat;
  body : Body;
}.

Definition json (b : Body) (status : nat) : HttpResponse :=
  {| status := status; body := b |}.

(** [process.env] *)
Record Env := {
  OPENAI_API_KEY : option string;
  OPENAI_MODEL : option string;
}.

(** The value of [response.output_parsed] when it is not [null]. *)
Record Parsed := {
  replacementText : option string;
}.

(** What the handler reads of the result of [client.responses.parse]. *)
Record ParseResult := {
  result_status : string;
  incomplete_reason : option string;
  output_parsed : option Parsed;
}.

(** The arguments of [client.responses.parse] that vary; the [text.format]
    argument is the fixed strict JSON schema [ai_edit] with the single
    required string property [replacementText]. *)
Record ParseCall := {
  apiKey : string;
  model : string;
  instructions : string;
  input : string;
}.

Section Handler.

(** The JavaScript number type of the values taken from the request:
    literals and string lengths, [+], and the conversion to a string of
    a template literal. *)
Variable number : Type.
Variable number_of_nat : nat -> number.
Variable number_add : number -> number -> number.
Variable number_toString : number -> string.

(** [RequestBody]: an absent or [null] field is [None].  So is a value of
    another type than the declared one in the fields that the handler tests
    with [typeof]: the three required strings, [percentThroughDocument],
    [contextBefore] and [contextAfter].  The fields [start], [end] and
    [length] hold numbers: a value of another type there, which the handler
    would convert with [Number] and not replace by the default, has no
    place in this type. *)
Record Selection := {
  start : option number;
  end_ : option number;
  length_ : option number;
  percentThroughDocument : option number;
  contextBefore : option string;
  contextAfter : option string;
  selectionLength : option number;
}.

Record RequestBody := {
  documentText : option string;
  documentMarkdown : option string;
  selectedText : option string;
  userPrompt : option string;
  selection : option Selection;
}.

(** The position metadata the handler works with. *)
Record Position := {
  pos_start : number;
  pos_end : number;
  pos_length : number;
  pos_percent : number;
  pos_contextBefore : string;
  pos_contextAfter : string;
}.

(** [selection?.field] *)
Definition field {A : Type} (f : Selection -> option A)
  (sel : option Selection) : option A :=
  match sel with
  | Some s => f s
  | None => None
  end.

(** [x ?? d] *)
Definition nullish {A : Type} (x : option A) (d : A) : A :=
  match x with
  | Some v => v
  | None => d
  end.

(** The six constants computed from [selection] and [selectedText]. *)
Definition position (sel : option Selection) (selectedText : string)
  : Position :=
  let start := nullish (field start sel) (number_of_nat 0) in
  let end_ :=
    nullish (field end_ sel)
            (number_add start (number_of_nat (length selectedText))) in
  let length_ :=
    nullish (field length_ sel) (number_of_nat (length selectedText)) in
  let percent :=
    match field percentThroughDocument sel with
    | Some p => p
    | None => number_of_nat 0
    end in
  let contextBefore :=
    match field contextBefore sel with
    | Some c => c
    | None => EmptyString
    end in
  let contextAfter :=
    match field contextAfter sel with
    | Some c => c
    | None => EmptyString
    end in
  {| pos_start := start;
     pos_end := end_;
     pos_length := length_;
     pos_percent := percent;
     pos_contextBefore := contextBefore;
     pos_contextAfter := contextAfter |}.

Definition build_prompt (userPrompt selectedText : string) (p : Position)
  (documentMarkdown : option string) (documentText : string) : string :=
  concat (String LF EmptyString)
    [ "You are editing a markdown document. Replace the selected span with the best possible rewrite.";
      "Return only the replacement text. Do not wrap it in code fences or add commentary.";
      EmptyString;
      "User prompt: " ++ userPrompt;
      EmptyString;
      "Selected text:";
      selectedText;
      EmptyString;
      "Position metadata:";
      "start: " ++ number_toString (pos_start p)
        ++ ", end: " ++ number_toString (pos_end p)
        ++ ", length: " ++ number_toString (pos_length p)
        ++ ", percentThroughDocument: " ++ number_toString (pos_percent p);
      EmptyString;
      "Prefix context:";
      pos_contextBefore p;
      EmptyString;
      "Suffix context:";
      pos_contextAfter p;
      EmptyString;
      "Document markdown (for context only):";
      nullish documentMarkdown EmptyString;
      EmptyString;
      "Document plain text (for context only, do not echo back):";
      documentText;
      EmptyString;
      "Preserve inline markdown styles such as **bold**, _italic_, and <u>underline</u> when relevant."
    ].

Definition system_instructions : string :=
  "You are a precise writing assistant. Replace the user's selected markdown span. If the selection is empty, insert your output at the cursor without deleting surrounding text. Output only the replacement text with no extra narration.".

Definition failure : HttpResponse :=
  json (ErrorBody "AI request failed. Please try again.") 500.

(** The [try] block of the handler once the call has come back: [None]
    is one of its two [throw]s. *)
Definition read_result (r : ParseResult) : option HttpResponse :=
  if (result_status r =? "incomplete")%string then None
  else
    match output_parsed r with
    | Some {| replacementText := Some (String c t) |} =>
        Some (json (ReplacementBody (trim (String c t))) 200)
    | _ => None
    end.

(** [POST].  [request_json] is the outcome of [await request.json()],
    [None] when it throws; [responses_parse] is the call to the model,
    [None] when it throws. *)
Definition POST (env : Env) (request_json : option RequestBody)
  (responses_parse : ParseCall -> option ParseResult) : HttpResponse :=
  match OPENAI_API_KEY env with
  | None | Some EmptyString =>
      json (ErrorBody "OPENAI_API_KEY is not configured.") 500
  | Some key =>
      match request_json with
      | None => json (ErrorBody "Invalid JSON body.") 400
      | Some b =>
          match documentText b, selectedText b, userPrompt b with
          | Some documentText, Some selectedText, Some userPrompt =>
              let p := position (selection b) selectedText in
              let prompt :=
                build_prompt userPrompt selectedText p
                             (documentMarkdown b) documentText in
              let call :=
                {| apiKey := key;
                   model :=
                     if truthy (OPENAI_MODEL env)
                     then or_empty (OPENAI_MODEL env) else "gpt-5.2";
                   instructions := system_instructions;
                   input := prompt |} in
              match responses_parse call with
              | Some r =>
                  match read_result r with
                  | Some resp => resp
                  | None => failure
                  end
              | None => failure
              end
          | _, _, _ =>
              json (ErrorBody
                      "documentText, selectedText, and userPrompt are required.")
                   400
          end
      end
  end.

End Handler.

Arguments start {number}.
Arguments end_ {number}.
Arguments length_ {number}.
Arguments percentThroughDocument {number}.
Arguments contextBefore {number}.
Arguments contextAfter {number}.
Arguments selectionLength {number}.
Arguments documentText {number}.
Arguments documentMarkdown {number}.
Arguments selectedText {number}.
Arguments userPrompt {number}.
Arguments selection {number}.
Arguments pos_start {number}.
Arguments pos_end {number}.
Arguments pos_length {number}.
Arguments pos_percent {number}.
Arguments pos_contextBefore {number}.
Arguments pos_contextAfter {number}.

End Route.

(** ** A plain-text instance of the collaborators

    The smallest browser the page runs on: the editable root holds one text
    node, a range is a pair of offsets into it, and the markup of the root
    is its text.  It serves to run the page on concrete inputs. *)

Module Plain.

Import Js Page.

(** [marked.parse] with [gfm] and [breaks] on plain paragraphs (words
    without markdown syntax, lines without leading or trailing blanks): an
    empty line ends a paragraph, every other line feed inside a paragraph
    is rendered as [<br>]. *)
Fixpoint plain_marked (open : bool) (md : string) : string :=
  let close := if open then "</p>" ++ String LF EmptyString else EmptyString in
  match md with
  | String c md' =>
      if Ascii.eqb c LF then
        match md' with
        | String c' _ =>
            if Ascii.eqb c' LF then close ++ plain_marked false md'
            else if open then "<br>" ++ plain_marked true md'
            else plain_marked false md'
        | EmptyString => close
        end
      else (if open then EmptyString else "<p>")
             ++ String c (plain_marked true md')
  | EmptyString => close
  end.

Definition plain_katex (expr : string) (o : KatexOptions) : option string :=
  Some ((if displayMode o then "<span class=katex-display>"
         else "<span class=katex>") ++ expr ++ "</span>").

#[export] Instance plain : Platform := {|
  Dom := string;
  Range := nat * nat;
  innerHTML := fun d => d;
  set_innerHTML := fun h _ => h;
  innerText := fun d => d;
  range_toString := fun d r => slice (fst r) (snd r) d;
  before_toString := fun d r => slice 0 (fst r) d;
  contains_range := fun d r => (fst r <=? snd r) && (snd r <=? length d);
  isCollapsed := fun r => fst r =? snd r;
  insertHTML := fun r h d =>
    slice 0 (fst r) d ++ h ++ slice (snd r) (length d) d;
  marked_parse := plain_marked false;
  katex_renderToString := plain_katex;
  turndown := fun h => h;
|}.

(** The state of the page after the document [text] was loaded, with the
    range [r] stored and [prompt] typed into the open popover. *)
Definition editing (text : string) (r : nat * nat) (prompt : string)
  : State plain :=
  {| editorRef := Some text;
     selectionRangeRef := Some r;
     aiUndoRef := None;
     markdown := text;
     toolbar_visible := true;
     aiPrompt := prompt;
     aiOpen := true;
     aiLoading := false;
     toast := None |}.

(** The page with the document [text] loaded and nothing selected yet. *)
Definition loaded (text : string) : State plain :=
  {| editorRef := Some text;
     selectionRangeRef := None;
     aiUndoRef := None;
     markdown := text;
     toolbar_visible := false;
     aiPrompt := EmptyString;
     aiOpen := false;
     aiLoading := false;
     toast := None |}.

Definition reply (text : option string) : FetchOutcome :=
  FetchResponse true (Some {| Page.replacementText := text |}).

(** A session in which the user goes on typing while the request is in
    flight: the form is submitted on the document [a] with the caret
    behind it, the user clicks back into the editor and types [b], the
    caret follows, and only then the reply [x] arrives and is applied by the
    continuation of the [submitAi] that was started before the typing. *)
Definition typing_submitted : State plain :=
  fst (submitAi_begin (editing "a" (1, 1) "more")).

Definition typing_before_reply : State plain :=
  handleSelection (Some (2, 2))
    (userInput "ab" (clickOutsidePopover typing_submitted)).

Definition typing_applied : State plain :=
  submitAi_settle (markdown (editing "a" (1, 1) "more")) (reply (Some "x"))
    typing_before_reply.

Definition typing_undone : State plain := clickToastAction typing_applied.

(** [Number] values of the route as integers, printed in decimal. *)
Definition show_Z (z : Z) : string := NilZero.string_of_int (Z.to_int z).

(** The route on integers. *)
Definition POST_Z := Route.POST Z Z.of_nat Z.add show_Z.

Definition env_with_key : Route.Env :=
  {| Route.OPENAI_API_KEY := Some "sk-test"; Route.OPENAI_MODEL := None |}.

(** A request body without [selection]. *)
Definition body_without_selection : Route.RequestBody Z :=
  {| Route.documentText := Some "The quick fox";
     Route.documentMarkdown := Some "The quick fox";
     Route.selectedText := Some "quick";
     Route.userPrompt := Some "shorten";
     Route.selection := None |}.

(** A model that completes and answers with [text]. *)
Definition model_answers (text : string) (_ : Route.ParseCall)
  : option Route.ParseResult :=
  Some {| Route.result_status := "completed";
          Route.incomplete_reason := None;
          Route.output_parsed :=
            Some {| Route.replacementText := Some text |} |}.

End Plain.

(** ** An instance with line breaks

    The editable root as the browser holds it for the two kinds of content
    that marked renders from lines of text: one paragraph whose lines are
    separated by [<br>] (a single line feed in the markdown, under
    [breaks: true]), and a bulleted list with one item on each line.  The
    markup of a list has a line feed after the opening tag and after every
    item, so its tree has these line feeds as text nodes of their own, next
    to the text node of every item.

    The two ways the page reads text differ on such a root.
    [Range.toString] concatenates the data of the text nodes in the range:
    a [<br>] is no text node and adds nothing, and a line feed between two
    tags is a text node and is added.  [innerText] is the text as it is
    laid out, under the default [white-space]: one line for every line of
    the paragraph or item of the list, with a line feed between two lines,
    and nothing for the line feeds between the tags. *)

Module Lined.

Import Js Page.

Inductive Document :=
| Paragraph (lines : list string)
| BulletList (items : list string)
| Markup (html : string).

(** The lines laid out; content that was assigned as markup is not
    analysed and counts as one line, as in [Plain]. *)
Definition lines_of (d : Document) : list string :=
  match d with
  | Paragraph lines => lines
  | BulletList items => items
  | Markup html => [html]
  end.

Definition newline : string := String LF EmptyString.

Definition markup_of (d : Document) : string :=
  match d with
  | Paragraph lines => "<p>" ++ concat "<br>" lines ++ "</p>" ++ newline
  | BulletList items =>
      "<ul>" ++ newline
        ++ concat EmptyString
             (map (fun item => "<li>" ++ item ++ "</li>" ++ newline) items)
        ++ "</ul>" ++ newline
  | Markup html => html
  end.

(** The data of the text nodes in front of the text node of line [i], in
    document order. *)
Definition text_nodes_before (d : Document) (i : nat) : string :=
  match d with
  | Paragraph lines => concat EmptyString (firstn i lines)
  | BulletList items =>
      newline ++ concat EmptyString
                   (map (fun item => item ++ newline) (firstn i items))
  | Markup _ => EmptyString
  end.

(** A range inside the text node of one line: from offset [lo] to offset
    [hi] of line [line]. *)
Record LineRange := {
  line : nat;
  lo : nat;
  hi : nat;
}.

Definition line_text (d : Document) (r : LineRange) : string :=
  nth (line r) (lines_of d) EmptyString.

Fixpoint set_line (i : nat) (text : string) (lines : list string)
  : list string :=
  match lines, i with
  | [], _ => []
  | _ :: lines', O => text :: lines'
  | l :: lines', S i' => l :: set_line i' text lines'
  end.

Definition with_lines (d : Document) (lines : list string) : Document :=
  match d with
  | Paragraph _ => Paragraph lines
  | BulletList _ => BulletList lines
  | Markup _ => Markup (concat EmptyString lines)
  end.

#[export] Instance lined : Platform := {|
  Dom := Document;
  Range := LineRange;
  innerHTML := markup_of;
  set_innerHTML := fun h _ => Markup h;
  innerText := fun d => concat newline (lines_of d);
  range_toString := fun d r =>
    substring (lo r) (hi r - lo r) (line_text d r);
  before_toString := fun d r =>
    text_nodes_before d (line r) ++ substring 0 (lo r) (line_text d r);
  contains_range := fun d r =>
    (line r <? List.length (lines_of d))
    && (lo r <=? hi r) && (hi r <=? length (line_text d r));
  isCollapsed := fun r => lo r =? hi r;
  insertHTML := fun r h d =>
    let t := line_text d r in
    Markup
      (markup_of
         (with_lines d
            (set_line (line r)
               (substring 0 (lo r) t ++ h
                  ++ substring (hi r) (length t - hi r) t)
               (lines_of d))));
  marked_parse := Plain.plain_marked false;
  katex_renderToString := Plain.plain_katex;
  turndown := fun h => h;
|}.

(** The word [b] selected on the second line. *)
Definition second_line : LineRange := {| line := 1; lo := 0; hi := 1 |}.

End Lined.

(** ** The rest of the page: loading, files, drafts, theme, shortcuts *)

Module Home.

Import Js Page.

(** [String.prototype.toLowerCase] on code units below 256: the letters
    [A] to [Z] and the capital letters of Latin-1. *)
Definition lower (c : ascii) : ascii :=
  let n := nat_of_ascii c in
  if ((65 <=? n) && (n <=? 90))
     || ((192 <=? n) && (n <=? 222) && negb (n =? 215))
  then ascii_of_nat (n + 32) else c.

Fixpoint toLowerCase (s : string) : string :=
  match s with
  | String c s' => String (lower c) (toLowerCase s')
  | EmptyString => EmptyString
  end.

(** What the [keydown] listener reads of its event. *)
Record KeyboardEvent := {
  key : string;
  metaKey : bool;
  ctrlKey : bool;
  shiftKey : bool;
}.

(** The handler a key press is dispatched to. *)
Inductive Shortcut :=
| RunSave | RunOpen | RunNew | RunPrint | RunFullscreen | RunTheme
| ClosePopover | NoShortcut.

(** The [onKeyDown] listener of the document: the handler it calls and
    whether it calls [preventDefault].  [aiOpen] is the state of the
    popover. *)
Definition onKeyDown (event : KeyboardEvent) (aiOpen : bool)
  : Shortcut * bool :=
  let key := toLowerCase (key event) in
  let mod_ := metaKey event || ctrlKey event in
  if mod_ && (key =? "s")%string then (RunSave, true)
  else if mod_ && (key =? "o")%string then (RunOpen, true)
  else if mod_ && (key =? "n")%string then (RunNew, true)
  else if mod_ && (key =? "p")%string then (RunPrint, true)
  else if mod_ && shiftKey event && (key =? "f")%string
  then (RunFullscreen, true)
  else if mod_ && shiftKey event && (key =? "l")%string then (RunTheme, true)
  else if (Home.key event =? "Escape")%string && aiOpen
  then (ClosePopover, false)
  else (NoShortcut, false).

Inductive Theme := light | dark.

(** The commands of [toggleFormat]. *)
Inductive FormatCommand := bold | italic | underline.

(** What [showSaveFilePicker] or [showOpenFilePicker] does when called. *)
Inductive Picked (A : Type) :=
| PickerThrows
| PickerGives (handle : option A).

Arguments PickerThrows {A}.
Arguments PickerGives {A}.

Section Shell.

Context {P : Platform}.

(** [FileSystemFileHandle] *)
Variable FileHandle : Type.

(** [document.execCommand(command)] on the live selection [sel]. *)
Variable execFormat : FormatCommand -> option Range -> Dom -> Dom.

(** [setEditorContentFromMarkdown].  [focus] moves the caret to the end of
    the content, which changes the selection of the window and nothing of
    the component. *)
Definition setEditorContentFromMarkdown (md : string) (focus : bool)
  (s : State P) : State P :=
  match editorRef s with
  | None => s
  | Some d =>
      let rawHtml := marked_parse md in
      let html := renderMath rawHtml in
      let content :=
        match html with
        | EmptyString => "<p><br></p>"
        | _ => html
        end in
      setMarkdown md (set_editor (set_innerHTML content d) s)
  end.

Definition toggleFormat (command : FormatCommand) (sel : option Range)
  (s : State P) : State P :=
  match editorRef s with
  | None => s
  | Some d => updateMarkdownFromEditor (set_editor (execFormat command sel d) s)
  end.

(** The [Escape] branch of the [keydown] listener, and the [onKeyDown] of
    the input of the popover. *)
Definition closePopover (s : State P) : State P :=
  setToolbarVisible false (setAiOpen false s).

Definition promptEscape (s : State P) : State P := setAiOpen false s.

(** The component [Home] with what it reaches outside itself: the state of
    the edit session ([page]), the remaining state and refs, the two items
    of [localStorage], the theme attribute of the body, and the files
    written and offered for download, latest first. *)
Record App := {
  page : State P;
  isDirty : bool;
  savedMarkdownRef : string;
  fileHandleRef : option FileHandle;
  theme : Theme;
  draftItem : option string;
  themeItem : option Theme;
  bodyTheme : option Theme;
  written : list (FileHandle * string);
  downloaded : list string;
}.

Definition with_page (f : State P -> State P) (a : App) : App :=
  {| page := f (page a);
     isDirty := isDirty a;
     savedMarkdownRef := savedMarkdownRef a;
     fileHandleRef := fileHandleRef a;
     theme := theme a;
     draftItem := draftItem a;
     themeItem := themeItem a;
     bodyTheme := bodyTheme a;
     written := written a;
     downloaded := downloaded a |}.

Definition setIsDirty (b : bool) (a : App) : App :=
  {| page := page a;
     isDirty := b;
     savedMarkdownRef := savedMarkdownRef a;
     fileHandleRef := fileHandleRef a;
     theme := theme a;
     draftItem := draftItem a;
     themeItem := themeItem a;
     bodyTheme := bodyTheme a;
     written := written a;
     downloaded := downloaded a |}.

Definition set_savedMarkdown (md : string) (a : App) : App :=
  {| page := page a;
     isDirty := isDirty a;
     savedMarkdownRef := md;
     fileHandleRef := fileHandleRef a;
     theme := theme a;
     draftItem := draftItem a;
     themeItem := themeItem a;
     bodyTheme := bodyTheme a;
     written := written a;
     downloaded := downloaded a |}.

Definition set_fileHandle (h : option FileHandle) (a : App) : App :=
  {| page := page a;
     isDirty := isDirty a;
     savedMarkdownRef := savedMarkdownRef a;
     fileHandleRef := h;
     theme := theme a;
     draftItem := draftItem a;
     themeItem := themeItem a;
     bodyTheme := bodyTheme a;
     written := written a;
     downloaded := downloaded a |}.

Definition set_themes (t : Theme) (item : option Theme) (a : App) : App :=
  {| page := page a;
     isDirty := isDirty a;
     savedMarkdownRef := savedMarkdownRef a;
     fileHandleRef := fileHandleRef a;
     theme := t;
     draftItem := draftItem a;
     themeItem := item;
     bodyTheme := Some t;
     written := written a;
     downloaded := downloaded a |}.

Definition set_draftItem (md : string) (a : App) : App :=
  {| page := page a;
     isDirty := isDirty a;
     savedMarkdownRef := savedMarkdownRef a;
     fileHandleRef := fileHandleRef a;
     theme := theme a;
     draftItem := Some md;
     themeItem := themeItem a;
     bodyTheme := bodyTheme a;
     written := written a;
     downloaded := downloaded a |}.

Definition write_file (h : FileHandle) (md : string) (a : App) : App :=
  {| page := page a;
     isDirty := isDirty a;
     savedMarkdownRef := savedMarkdownRef a;
     fileHandleRef := fileHandleRef a;
     theme := theme a;
     draftItem := draftItem a;
     themeItem := themeItem a;
     bodyTheme := bodyTheme a;
     written := (h, md) :: written a;
     downloaded := downloaded a |}.

Definition download (md : string) (a : App) : App :=
  {| page := page a;
     isDirty := isDirty a;
     savedMarkdownRef := savedMarkdownRef a;
     fileHandleRef := fileHandleRef a;
     theme := theme a;
     draftItem := draftItem a;
     themeItem := themeItem a;
     bodyTheme := bodyTheme a;
     written := written a;
     downloaded := md :: downloaded a |}.

Definition notice (text : string) : ToastState :=
  {| message := text; actionLabel := None; onAction := None |}.

(** *** Theme *)

Definition other_theme (t : Theme) : Theme :=
  match t with
  | dark => light
  | light => dark
  end.

Definition toggleTheme (forced : option Theme) (a : App) : App :=
  let nextTheme :=
    match forced with
    | Some t => t
    | None => other_theme (theme a)
    end in
  set_themes nextTheme (Some nextTheme) a.

(** *** Start

    The state of [Home] when it is mounted on the editor root [d], in a
    browser that holds the items [draft] and [storedTheme], and the effect
    that runs once after mounting; [prefersDark] is the answer of the media
    query. *)
Definition mounted (d : Dom) (draft : option string)
  (storedTheme : option Theme) : App :=
  {| page :=
       {| editorRef := Some d;
          selectionRangeRef := None;
          aiUndoRef := None;
          markdown := EmptyString;
          toolbar_visible := false;
          aiPrompt := EmptyString;
          aiOpen := false;
          aiLoading := false;
          toast := None |};
     isDirty := false;
     savedMarkdownRef := EmptyString;
     fileHandleRef := None;
     theme := light;
     draftItem := draft;
     themeItem := storedTheme;
     bodyTheme := None;
     written := [];
     downloaded := [] |}.

Definition startEffect (prefersDark : bool) (a : App) : App :=
  let initialTheme :=
    match themeItem a with
    | Some t => t
    | None => if prefersDark then dark else light
    end in
  let a1 := set_themes initialTheme (themeItem a) a in
  match draftItem a1 with
  | Some (String c draft) =>
      with_page (setEditorContentFromMarkdown (String c draft) false) a1
  | _ => with_page (setEditorContentFromMarkdown EmptyString false) a1
  end.

(** *** Drafts and the dirty flag *)

(** The timer of the draft effect fires, 800 ms after the last change of
    [markdown]. *)
Definition draftTimer (a : App) : App :=
  setIsDirty false
    (set_savedMarkdown (markdown (page a))
       (set_draftItem (markdown (page a)) a)).

(** The effect that runs after every change of [markdown]. *)
Definition dirtyEffect (a : App) : App :=
  setIsDirty (negb (markdown (page a) =? savedMarkdownRef a)%string) a.

(** *** Files *)

Definition handleNew (confirmed : bool) (a : App) : App :=
  if isDirty a && negb confirmed then a
  else
    with_page (setEditorContentFromMarkdown EmptyString true)
      (setIsDirty false (set_savedMarkdown EmptyString (set_fileHandle None a))).

(** The file a picker for opening leads to: the text of the file, or
    [None] when reading it throws. *)
Record OpenEnv := {
  showOpenFilePicker : option (Picked (FileHandle * option string));
}.

(** [handleOpen].  Without the picker of the File System Access API the
    hidden file input is clicked, which changes nothing by itself. *)
Definition handleOpen (env : OpenEnv) (a : App) : App :=
  match showOpenFilePicker env with
  | None => a
  | Some PickerThrows => a
  | Some (PickerGives None) => a
  | Some (PickerGives (Some (handle, text))) =>
      let a1 := set_fileHandle (Some handle) a in
      match text with
      | None => a1
      | Some content =>
          with_page (setEditorContentFromMarkdown content true)
            (setIsDirty false (set_savedMarkdown content a1))
      end
  end.

(** [handleOpenFromPicker], the [onChange] of the file input: [file] is the
    text of the first chosen file, [None] when none was chosen. *)
Definition handleOpenFromPicker (file : option string) (a : App) : App :=
  match file with
  | None => a
  | Some content =>
      with_page (setEditorContentFromMarkdown content true)
        (setIsDirty false (set_savedMarkdown content (set_fileHandle None a)))
  end.

(** The browser at the time of a save: the picker, when there is one, and
    whether [createWritable], [write] and [close] on a handle go through. *)
Record SaveEnv := {
  showSaveFilePicker : option (Picked FileHandle);
  write_succeeds : FileHandle -> bool;
}.

Definition save_as_download (md : string) (a : App) : App :=
  with_page (setToast (Some (notice "Saved as download.")))
    (setIsDirty false (set_savedMarkdown md (download md a))).

(** [handleSave] is a [useCallback] over [markdown]: what it writes and
    records as saved is the [markdown] of the render that created it,
    [markdown_closed]. *)
Definition handleSave_run (markdown_closed : string) (env : SaveEnv) (a : App)
  : App :=
  match showSaveFilePicker env with
  | None => save_as_download markdown_closed a
  | Some picker =>
      let picked :=
        match fileHandleRef a with
        | Some h => PickerGives (Some h)
        | None => picker
        end in
      match picked with
      | PickerThrows => save_as_download markdown_closed a
      | PickerGives None => a
      | PickerGives (Some handle) =>
          let a1 := set_fileHandle (Some handle) a in
          if write_succeeds env handle then
            with_page (setToast (Some (notice "Saved to file.")))
              (setIsDirty false
                 (set_savedMarkdown markdown_closed
                    (write_file handle markdown_closed a1)))
          else save_as_download markdown_closed a1
      end
  end.

(** A save during which nothing else happens. *)
Definition handleSave (env : SaveEnv) (a : App) : App :=
  handleSave_run (markdown (page a)) env a.

(** *** Events

    What can happen to the mounted page, one handler or effect at a time.
    The two halves of [submitAi] are separate events, so that anything may
    happen between them; the second half and the save carry the [markdown]
    their closure holds. *)
Inductive Event :=
| SelectionChange (sel : option Range)
| ContextMenu (sel : option Range)
| AskAi (sel : option Range)
| PromptChange (text : string)
| PromptEscape
| EscapeKey
| ClickOutside
| Input (d : Dom)
| Format (command : FormatCommand) (sel : option Range)
| SubmitBegin
| SubmitSettle (markdown_closed : string) (out : FetchOutcome)
| ToastTimeout
| ToastClick
| New (confirmed : bool)
| Open (env : OpenEnv)
| OpenFromInput (file : option string)
| Save (markdown_closed : string) (env : SaveEnv)
| ToggleTheme (forced : option Theme)
| DraftTimer
| DirtyEffect.

Definition step (e : Event) (a : App) : App :=
  match e with
  | SelectionChange sel => with_page (handleSelection sel) a
  | ContextMenu sel => with_page (handleContextMenu sel) a
  | AskAi sel => with_page (openAiPrompt sel) a
  | PromptChange text => with_page (setAiPrompt text) a
  | PromptEscape => with_page promptEscape a
  | EscapeKey =>
      if aiOpen (page a) then with_page closePopover a else a
  | ClickOutside => with_page clickOutsidePopover a
  | Input d => with_page (userInput d) a
  | Format command sel => with_page (toggleFormat command sel) a
  | SubmitBegin => with_page (fun s => fst (submitAi_begin s)) a
  | SubmitSettle md out => with_page (submitAi_settle md out) a
  | ToastTimeout => with_page toastTimeout a
  | ToastClick => with_page clickToastAction a
  | New confirmed => handleNew confirmed a
  | Open env => handleOpen env a
  | OpenFromInput file => handleOpenFromPicker file a
  | Save md env => handleSave_run md env a
  | ToggleTheme forced => toggleTheme forced a
  | DraftTimer => draftTimer a
  | DirtyEffect => dirtyEffect a
  end.

Fixpoint run (events : list Event) (a : App) : App :=
  match events with
  | [] => a
  | e :: events' => run events' (step e a)
  end.

(** What holds of the edit session in every state the page can reach: the
    editor is mounted; while the popover is open a range is stored; and a
    toast that carries an action also has the label of its button and finds
    a snapshot to restore. *)
Definition session_ok (s : State P) : Prop :=
  editorRef s <> None
  /\ (aiOpen s = true -> selectionRangeRef s <> None)
  /\ (forall t, toast s = Some t -> onAction t <> None ->
                actionLabel t <> None /\ aiUndoRef s <> None).

End Shell.

Arguments App {P}.
Arguments Event {P}.
Arguments OpenEnv : clear implicits.
Arguments SaveEnv : clear implicits.
Arguments page {P FileHandle}.
Arguments isDirty {P FileHandle}.
Arguments savedMarkdownRef {P FileHandle}.
Arguments fileHandleRef {P FileHandle}.
Arguments theme {P FileHandle}.
Arguments draftItem {P FileHandle}.
Arguments themeItem {P FileHandle}.
Arguments bodyTheme {P FileHandle}.
Arguments written {P FileHandle}.
Arguments downloaded {P FileHandle}.
Arguments showOpenFilePicker {FileHandle}.
Arguments showSaveFilePicker {FileHandle}.
Arguments write_succeeds {FileHandle}.
Arguments with_page {P FileHandle}.
Arguments toggleTheme {P FileHandle}.
Arguments startEffect {P FileHandle}.
Arguments draftTimer {P FileHandle}.
Arguments dirtyEffect {P FileHandle}.
Arguments handleNew {P FileHandle}.
Arguments handleOpen {P FileHandle}.
Arguments handleOpenFromPicker {P FileHandle}.
Arguments save_as_download {P FileHandle}.
Arguments handleSave_run {P FileHandle}.
Arguments handleSave {P FileHandle}.
Arguments step {P FileHandle}.
Arguments run {P FileHandle}.
Arguments SelectionChange {P FileHandle}.
Arguments ContextMenu {P FileHandle}.
Arguments AskAi {P FileHandle}.
Arguments PromptChange {P FileHandle}.
Arguments PromptEscape {P FileHandle}.
Arguments EscapeKey {P FileHandle}.
Arguments ClickOutside {P FileHandle}.
Arguments Input {P FileHandle}.
Arguments Format {P FileHandle}.
Arguments SubmitBegin {P FileHandle}.
Arguments SubmitSettle {P FileHandle}.
Arguments ToastTimeout {P FileHandle}.
Arguments ToastClick {P FileHandle}.
Arguments New {P FileHandle}.
Arguments Open {P FileHandle}.
Arguments OpenFromInput {P FileHandle}.
Arguments Save {P FileHandle}.
Arguments ToggleTheme {P FileHandle}.
Arguments DraftTimer {P FileHandle}.
Arguments DirtyEffect {P FileHandle}.

End Home.

(** The plain-text instance of the rest of the page: a file handle is a
    number and formatting leaves plain text as it is. *)

Module PlainHome.

Import Page Home.

Definition no_format (_ : FormatCommand) (_ : option (nat * nat)) (d : string)
  : string := d.

Definition App := Home.App (P := Plain.plain) nat.
Definition Event := Home.Event (P := Plain.plain) nat.

Definition mounted : string -> option string -> option Theme -> App :=
  Home.mounted (P := Plain.plain) nat.

Definition step : Event -> App -> App :=
  Home.step (P := Plain.plain) no_format.

Definition run : list Event -> App -> App :=
  Home.run (P := Plain.plain) no_format.

(** The page after the file [text] was opened from the handle [h]. *)
Definition opened (h : nat) (text : string) : App :=
  Home.handleOpen (P := Plain.plain)
    {| Home.showOpenFilePicker := Some (PickerGives (Some (h, Some text))) |}
    (mounted EmptyString None None).

(** A browser with a save picker that gives the handle [h], and one
    without the File System Access API. *)
Definition picker_gives (h : nat) : SaveEnv nat :=
  {| showSaveFilePicker := Some (PickerGives (Some h));
     write_succeeds := fun _ => true |}.

Definition no_picker : SaveEnv nat :=
  {| showSaveFilePicker := None; write_succeeds := fun _ => true |}.

End PlainHome.

(** ** From the page to the route

    The body that [submitAi] sends, as the route reads it: the object
    literal given to [JSON.stringify], every field present.  The numbers
    of the route are the rationals that the doubles denote. *)

Module Wire.

Definition number_of_nat (n : nat) : Q := inject_Z (Z.of_nat n).

Definition body_of_request (req : Page.AiRequest) : Route.RequestBody Q :=
  {| Route.documentText := Some (Page.documentText req);
     Route.documentMarkdown := Some (Page.documentMarkdown req);
     Route.selectedText := Some (Page.selectedText req);
     Route.userPrompt := Some (Page.userPrompt req);
     Route.selection :=
       Some {| Route.start :=
                 Some (number_of_nat (Page.start (Page.selection req)));
               Route.end_ :=
                 Some (number_of_nat (Page.end_ (Page.selection req)));
               Route.length_ :=
                 Some (number_of_nat (Page.length_ (Page.selection req)));
               Route.percentThroughDocument :=
                 Some (Page.percentThroughDocument (Page.selection req));
               Route.contextBefore :=
                 Some (Page.contextBefore (Page.selection req));
               Route.contextAfter :=
                 Some (Page.contextAfter (Page.selection req));
               Route.selectionLength :=
                 Some (number_of_nat (Page.selectionLength req)) |} |}.

End Wire.

(** * Properties *)

(** ** Strings *)

Section StringFacts.

Import Js.

Lemma app_nil_r (s : string) : s ++ EmptyString = s.
Proof. induction s as [|c s IH]; simpl; [reflexivity | now rewrite IH]. Qed.

Lemma app_assoc (s t u : string) : (s ++ t) ++ u = s ++ t ++ u.
Proof. induction s as [|c s IH]; simpl; [reflexivity | now rewrite IH]. Qed.

Lemma length_app (s t : string) : length (s ++ t) = length s + length t.
Proof. induction s as [|c s IH]; simpl; [reflexivity | now rewrite IH]. Qed.

Lemma prefix_nil (s : string) : prefix EmptyString s = true.
Proof. destruct s; reflexivity. Qed.

Lemma prefix_cons (a b : ascii) (s t : string) :
  prefix (String a s) (String b t) = Ascii.eqb a b && prefix s t.
Proof.
  simpl. destruct (ascii_dec a b) as [->|Hne].
  - now rewrite Ascii.eqb_refl.
  - apply Ascii.eqb_neq in Hne. now rewrite Hne.
Qed.

Lemma substring_0_length (s t : string) : substring 0 (length s) (s ++ t) = s.
Proof.
  induction s as [|c s IH]; simpl.
  - destruct t; reflexivity.
  - now rewrite IH.
Qed.

Lemma substring_all (s : string) : substring 0 (length s) s = s.
Proof. rewrite <- (app_nil_r s) at 2. apply substring_0_length. Qed.

Lemma substring_skip (s t : string) (n : nat) :
  substring (length s) n (s ++ t) = substring 0 n t.
Proof. induction s as [|c s IH]; simpl; [reflexivity | exact IH]. Qed.

Lemma substring_length_le (s : string) (a n : nat) :
  a + n <= length s -> length (substring a n s) = n.
Proof.
  revert a n. induction s as [|c s IH]; intros a n H; simpl in H.
  - assert (a = 0) by lia. assert (n = 0) by lia. subst. reflexivity.
  - destruct a as [|a]; simpl.
    + destruct n as [|n]; simpl; [reflexivity|]. rewrite IH; [reflexivity | lia].
    + apply IH. lia.
Qed.

Lemma endsWith_app (s t : string) : endsWith t (s ++ t) = true.
Proof.
  unfold endsWith. rewrite length_app.
  replace (length s + length t - length t) with (length s) by lia.
  rewrite substring_skip, substring_all, String.eqb_refl.
  rewrite andb_true_r. apply Nat.leb_le. lia.
Qed.

(** *** Trailing white space *)

Lemma trimEnd_spaces (ws : string) :
  every is_space ws = true -> trimEnd ws = EmptyString.
Proof.
  induction ws as [|c ws IH]; simpl; [reflexivity|].
  intros H. apply andb_true_iff in H as [Hc Hws].
  now rewrite (IH Hws), Hc.
Qed.

Lemma trimEnd_app_keep (s t : string) :
  trimEnd t <> EmptyString -> trimEnd (s ++ t) = s ++ trimEnd t.
Proof.
  intros Ht. induction s as [|c s IH]; simpl; [reflexivity|].
  rewrite IH. destruct (s ++ trimEnd t) eqn:E; [|reflexivity].
  destruct s; simpl in E; [contradiction | discriminate].
Qed.

Lemma trimEnd_app_spaces (s ws : string) :
  every is_space ws = true -> trimEnd (s ++ ws) = trimEnd s.
Proof.
  intros Hws. induction s as [|c s IH]; simpl.
  - now apply trimEnd_spaces.
  - now rewrite IH.
Qed.

(** *** Single characters *)

Lemma includes_char_cons (a c : ascii) (s : string) :
  includes (String a EmptyString) (String c s)
  = Ascii.eqb a c || includes (String a EmptyString) s.
Proof.
  cbn [includes]. now rewrite prefix_cons, prefix_nil, andb_true_r.
Qed.


End StringFacts.

(** ** The inline/block classifier *)

Section ClassifierFacts.

Import Js Page.

(** The paragraph pattern recognises a paragraph element followed by
    white space, whatever the element holds, and captures its content. *)
Lemma match_paragraph_wrapper (inner ws : string) :
  every is_space ws = true ->
  match_paragraph ("<p>" ++ inner ++ "</p>" ++ ws) = Some inner.
Proof.
  intros Hws. unfold match_paragraph.
  replace ("<p>" ++ inner ++ "</p>" ++ ws)
    with (("<p>" ++ inner ++ "</p>") ++ ws)
    by (now rewrite !app_assoc).
  rewrite (trimEnd_app_spaces _ _ Hws).
  replace ("<p>" ++ inner ++ "</p>") with (("<p>" ++ inner) ++ "</p>")
    by (now rewrite !app_assoc).
  rewrite trimEnd_app_keep by (cbn; discriminate).
  change (trimEnd "</p>") with "</p>".
  rewrite endsWith_app, length_app, length_app.
  set (n := length "<p>" + length inner + length "</p>").
  assert (Hn : n - 7 = length inner) by (subst n; cbn [length]; lia).
  assert (H7 : (7 <=? n) = true)
    by (apply Nat.leb_le; subst n; cbn [length]; lia).
  rewrite Hn, H7, app_assoc.
  cbn [append substring prefix].
  repeat match goal with |- context [ascii_dec ?a ?a] =>
    destruct (ascii_dec a a); [|congruence] end.
  rewrite prefix_nil. cbn [andb].
  now rewrite substring_0_length.
Qed.

(** No line feed is left after [collapse_newlines]. *)
Lemma collapse_newlines_no_LF (s : string) :
  includes (String LF EmptyString) (collapse_newlines s) = false.
Proof.
  induction s as [|c s IH]; [reflexivity|].
  cbn [collapse_newlines].
  destruct (Ascii.eqb c LF) eqn:Ec.
  - destruct s as [|c' s']; [reflexivity|].
    destruct (Ascii.eqb c' LF); [exact IH|].
    rewrite includes_char_cons, IH. reflexivity.
  - rewrite includes_char_cons, IH, Ascii.eqb_sym, Ec. reflexivity.
Qed.

(** A string without line feeds is left as it is. *)
Lemma collapse_newlines_id (s : string) :
  includes (String LF EmptyString) s = false -> collapse_newlines s = s.
Proof.
  induction s as [|c s IH]; [reflexivity|].
  rewrite includes_char_cons. intros H.
  apply orb_false_iff in H as [Hc Hs].
  cbn [collapse_newlines]. rewrite Ascii.eqb_sym, Hc. now rewrite IH.
Qed.

End ClassifierFacts.

(** C3 (as amended).  For a replacement whose trimmed form holds no two
    line feeds in a row and whose rendering by [marked] starts with [<p>]
    and ends with [</p>] and white space, [toInlineAwareHtml] strips this
    outer wrapper and hands what is between to the math expositor with
    every run of line feeds replaced by one space, so that this fragment
    holds no line feed.  Markup inside it, such as the [<br>] that [marked]
    writes for a single line feed under [breaks], is kept as it is. *)
Theorem toInlineAwareHtml_unwraps_paragraph
  {P : Page.Platform} (text inner ws : string) :
  Js.includes (String Js.LF (String Js.LF EmptyString)) (Js.trim text) = false ->
  Page.marked_parse (Js.trim text) = "<p>" ++ inner ++ "</p>" ++ ws ->
  Js.every Js.is_space ws = true ->
  Page.toInlineAwareHtml text = Page.renderMath (Page.collapse_newlines inner)
  /\ Js.includes (String Js.LF EmptyString) (Page.collapse_newlines inner) = false
  /\ (Js.includes (String Js.LF EmptyString) inner = false ->
      Page.toInlineAwareHtml text = Page.renderMath inner).
Proof.
  intros Hblank Hparse Hws.
  assert (E : Page.toInlineAwareHtml text
              = Page.renderMath (Page.collapse_newlines inner)).
  { unfold Page.toInlineAwareHtml.
    rewrite Hblank, Hparse. cbn [negb].
    now rewrite (match_paragraph_wrapper inner ws Hws). }
  split; [exact E|]. split.
  - apply collapse_newlines_no_LF.
  - intros Hnl. rewrite E. now rewrite collapse_newlines_id.
Qed.

Lemma toInlineAwareHtml_unwraps_paragraph_witness :
  Page.toInlineAwareHtml (P := Plain.plain) " a b "
  = Page.renderMath (P := Plain.plain) (Page.collapse_newlines "a b")
  /\ Js.includes (String Js.LF EmptyString) (Page.collapse_newlines "a b") = false
  /\ (Js.includes (String Js.LF EmptyString) "a b" = false ->
      Page.toInlineAwareHtml (P := Plain.plain) " a b "
      = Page.renderMath (P := Plain.plain) "a b").
Proof.
  apply (toInlineAwareHtml_unwraps_paragraph (P := Plain.plain)
           " a b " "a b" (String Js.LF EmptyString));
    reflexivity.
Defined.

(** C3 (as stated) fails: the replacement made of the two lines [a] and [b]
    has no blank line, is unwrapped as an inline fragment, and the fragment
    holds the hard line break that [marked] wrote for the line feed. *)
Lemma toInlineAwareHtml_keeps_hard_break :
  Js.includes (String Js.LF (String Js.LF EmptyString))
    (Js.trim ("a" ++ String Js.LF "b")) = false
  /\ Page.toInlineAwareHtml (P := Plain.plain) ("a" ++ String Js.LF "b")
     = "a<br>b"
  /\ Js.includes "<br>"
       (Page.toInlineAwareHtml (P := Plain.plain) ("a" ++ String Js.LF "b"))
     = true.
Proof. repeat split; vm_compute; reflexivity. Qed.

(** ** The math expositor *)

Section ExpositorFacts.

Import Js Page.


Lemma prefix_dollars_cons (a b : ascii) (s : string) :
  prefix "$$" (String a (String b s)) = (Ascii.eqb a dollar && Ascii.eqb b dollar)%bool.
Proof.
  rewrite !prefix_cons, prefix_nil, andb_true_r.
  now rewrite (Ascii.eqb_sym a), (Ascii.eqb_sym b).
Qed.


Lemma includes_dollars_cons (a : ascii) (s : string) :
  includes "$$" (String a s) = false ->
  prefix "$$" (String a s) = false /\ includes "$$" s = false.
Proof. cbn [includes]. intros H. now apply orb_false_iff in H. Qed.

(** *** Block spans *)



Lemma block_match_none (s : string) :
  prefix "$$" s = false -> block_match s = None.
Proof.
  destruct s as [|a [|b [|c r]]]; try reflexivity.
  rewrite prefix_dollars_cons. intros H. cbn [block_match]. now rewrite H.
Qed.




Lemma replace_block_none f (s : string) :
  includes "$$" s = false -> replace_block f 0 s = Some s.
Proof.
  induction s as [|a s IH]; intros H; [reflexivity|].
  apply includes_dollars_cons in H as [Hp Hi].
  cbn [replace_block]. rewrite (block_match_none _ Hp), (IH Hi). reflexivity.
Qed.


(** *** Inline spans *)

Lemma no_dollar_cons (a : ascii) (s : string) :
  includes "$" (String a s) = false ->
  Ascii.eqb a dollar = false /\ includes "$" s = false.
Proof.
  rewrite includes_char_cons, Ascii.eqb_sym. intros H.
  now apply orb_false_iff in H.
Qed.




Lemma inline_body_head (a : ascii) (s : string) :
  Ascii.eqb a dollar = false -> inline_body (String a s) = None.
Proof. intros H. cbn [inline_body]. now rewrite H. Qed.





Lemma inline_match_none (b : bool) (a : ascii) (s : string) :
  Ascii.eqb a dollar = false -> inline_body s = None ->
  inline_match b (String a s) = None.
Proof.
  intros Ha Hs. unfold inline_match.
  rewrite (inline_body_head a s Ha), Hs.
  destruct b, (Ascii.eqb a backslash); reflexivity.
Qed.




Lemma replace_inline_plain f (s : string) :
  includes "$" s = false -> forall b, replace_inline f b 0 s = Some s.
Proof.
  induction s as [|a s IH]; intros Hd b; [reflexivity|].
  apply no_dollar_cons in Hd as [Ha Hd].
  cbn [replace_inline]. rewrite inline_match_none; trivial.
  - now rewrite (IH Hd).
  - destruct s as [|a' s']; [reflexivity|].
    apply no_dollar_cons in Hd as [Ha' _]. now apply inline_body_head.
Qed.








(** *** Whole texts *)



End ExpositorFacts.




(** ** The selection locator *)

(** Where the two readings of the text agree, the offsets are those of the
    plain text: a range whose preceding text, as [Range.toString] gives it,
    is the first [a] characters of [innerText] and whose own text is the
    characters from [a] to [b] gets the metadata [start = a], [end = b],
    [length = b - a]; a collapsed range gets length [0] and an insertion
    point inside the text.  The code does not check that they agree. *)
Theorem getSelectionMeta_offsets {P : Page.Platform}
  (d : Page.Dom) (range : Page.Range) (a b : nat) :
  a <= b <= length (Page.innerText d) ->
  Page.before_toString d range = substring 0 a (Page.innerText d) ->
  Page.range_toString d range = substring a (b - a) (Page.innerText d) ->
  let m := Page.getSelectionMeta (Some d) range in
  Page.start m = a /\ Page.end_ m = b /\ Page.length_ m = b - a
  /\ (a = b ->
      Page.length_ m = 0 /\ Page.start m = Page.end_ m
      /\ Page.end_ m <= length (Page.innerText d)).
Proof.
  intros Hab Hbefore Hsel. cbn [Page.getSelectionMeta].
  cbn [Page.start Page.end_ Page.length_].
  rewrite Hbefore, Hsel.
  rewrite !substring_length_le by lia.
  repeat split; lia.
Qed.

Lemma getSelectionMeta_offsets_witness :
  Page.start (Page.getSelectionMeta (P := Plain.plain) (Some "The quick fox") (4, 9)) = 4
  /\ Page.end_ (Page.getSelectionMeta (P := Plain.plain) (Some "The quick fox") (4, 9)) = 9
  /\ Page.length_ (Page.getSelectionMeta (P := Plain.plain) (Some "The quick fox") (4, 9))
     = 9 - 4
  /\ (4 = 9 ->
      Page.length_ (Page.getSelectionMeta (P := Plain.plain) (Some "The quick fox") (4, 9))
      = 0
      /\ Page.start (Page.getSelectionMeta (P := Plain.plain) (Some "The quick fox") (4, 9))
         = Page.end_ (Page.getSelectionMeta (P := Plain.plain) (Some "The quick fox") (4, 9))
      /\ Page.end_ (Page.getSelectionMeta (P := Plain.plain) (Some "The quick fox") (4, 9))
         <= length "The quick fox").
Proof.
  apply (getSelectionMeta_offsets (P := Plain.plain) "The quick fox" (4, 9) 4 9).
  - simpl. lia.
  - reflexivity.
  - reflexivity.
Defined.

(** C4, at an input on which the code breaks it.  The offsets are measured
    on [Range.toString] and then used as offsets into [innerText].  In the
    paragraph [<p>a<br>b</p>], which is how the markdown of the two lines
    [a] and [b] is rendered, the plain text is [a], a line feed, [b]: the
    selected [b] spans the offsets 2 to 3.  The metadata has [start = 1] and
    [end = 2], since the break is no text node, and the context strings are
    cut at these offsets: the text after the selection comes out as the
    selected [b] itself, and the text before it lacks the line feed. *)
Theorem getSelectionMeta_offsets_miss_line_break :
  let d := Lined.Paragraph ["a"; "b"] in
  let range := Lined.second_line in
  let m := Page.getSelectionMeta (P := Lined.lined) (Some d) range in
  Page.innerHTML (Platform := Lined.lined) d
  = Page.marked_parse (Platform := Lined.lined) ("a" ++ String Js.LF "b")
  /\ Page.innerHTML (Platform := Lined.lined) d
     = "<p>a<br>b</p>" ++ String Js.LF EmptyString
  /\ Page.innerText (Platform := Lined.lined) d = "a" ++ String Js.LF "b"
  /\ Page.range_toString (Platform := Lined.lined) d range = "b"
  /\ substring 2 (3 - 2) (Page.innerText (Platform := Lined.lined) d) = "b"
  /\ substring 0 2 (Page.innerText (Platform := Lined.lined) d)
     = "a" ++ String Js.LF EmptyString
  /\ Page.start m = 1
  /\ Page.end_ m = 2
  /\ Page.length_ m = 1
  /\ Page.contextBefore m = "a"
  /\ Page.contextAfter m = "b".
Proof.
  cbn zeta. repeat split; vm_compute; reflexivity.
Qed.

(** C7 (as amended).  Without a selection, without an editor root, or with a
    selection outside the root, [handleSelection] only hides the toolbar: it
    stores no range and keeps the one stored before.  That no range is
    stored is what the callers branch on: [openAiPrompt], finding neither a
    stored range nor a live selection, shows its notice and leaves the
    popover closed, and [submitAi] sends nothing and closes the popover.
    [getSelectionMeta] always returns metadata; without an editor root it is
    the all-zero metadata. *)
Theorem no_selection_handling {P : Page.Platform} :
  (forall (s : Page.State P) sel,
      (sel = None \/ Page.editorRef s = None
       \/ exists d r, Page.editorRef s = Some d /\ sel = Some r
                      /\ Page.contains_range d r = false) ->
      Page.handleSelection sel s = Page.setToolbarVisible false s)
  /\ (forall s : Page.State P,
        Page.selectionRangeRef s = None ->
        Page.openAiPrompt None s
        = Page.setToast (Some Page.no_selection_toast) s)
  /\ (forall s : Page.State P,
        Page.selectionRangeRef s = None ->
        Page.submitAi_begin s = (Page.setAiOpen false s, None))
  /\ (forall range : Page.Range,
        Page.getSelectionMeta None range = Page.empty_meta).
Proof.
  repeat apply conj.
  - intros s sel [-> | [He | (d & r & He & -> & Hc)]]; unfold Page.handleSelection.
    + reflexivity.
    + rewrite He. destruct sel; reflexivity.
    + now rewrite He, Hc.
  - intros s Hr. unfold Page.openAiPrompt. now rewrite Hr, Hr.
  - intros s Hr. unfold Page.submitAi_begin. now rewrite Hr.
  - reflexivity.
Qed.

Lemma no_selection_handling_witness :
  Page.handleSelection (P := Plain.plain) (Some (5, 9)) (Plain.loaded "abc")
  = Page.setToolbarVisible false (Plain.loaded "abc")
  /\ Page.openAiPrompt (P := Plain.plain) None (Plain.loaded "abc")
     = Page.setToast (Some Page.no_selection_toast) (Plain.loaded "abc")
  /\ Page.submitAi_begin (P := Plain.plain) (Plain.loaded "abc")
     = (Page.setAiOpen false (Plain.loaded "abc"), None).
Proof.
  destruct (no_selection_handling (P := Plain.plain)) as (H1 & H2 & H3 & _).
  refine (conj _ (conj _ _)).
  - apply H1. right. right. exists "abc", (5, 9). repeat split; reflexivity.
  - apply H2. reflexivity.
  - apply H3. reflexivity.
Defined.

(** C7 (as stated) fails.  When the selection has gone, the range stored
    before stays stored and [submitAi] sends the request with the metadata
    computed for it; a selection outside the editable root that the
    context-menu handler stored is taken in the same way; and without an
    editor root the locator returns zero offsets.  In none of these cases
    is the absence of a selection reported. *)
Lemma locator_reports_no_missing_selection :
  option_map Page.selection
    (snd (Page.submitAi_begin (P := Plain.plain)
            (Page.handleSelection (P := Plain.plain) None
               (Plain.editing "abc" (1, 2) "shorten"))))
  = Some (Page.getSelectionMeta (P := Plain.plain) (Some "abc") (1, 2))
  /\ Page.contains_range (Platform := Plain.plain) "abc" (5, 9) = false
  /\ option_map Page.selection
       (snd (Page.submitAi_begin (P := Plain.plain)
               (Page.setAiPrompt "shorten"
                  (Page.openAiPrompt (P := Plain.plain) (Some (5, 9))
                     (Page.handleContextMenu (P := Plain.plain) (Some (5, 9))
                        (Plain.loaded "abc"))))))
     = Some (Page.getSelectionMeta (P := Plain.plain) (Some "abc") (5, 9))
  /\ Page.getSelectionMeta (P := Plain.plain) None (5, 9)
     = {| Page.start := 0; Page.end_ := 0; Page.length_ := 0;
          Page.percentThroughDocument := 0%Q;
          Page.contextBefore := EmptyString;
          Page.contextAfter := EmptyString |}.
Proof. repeat split. Qed.

(** ** The replacement applicator and the edit session *)

Section SessionFacts.

Import Js Page.
Context {P : Platform}.

(** What an applied replacement leaves behind. *)
Lemma applyAiReplacement_applied (s : State P) (d : Dom) (range : Range)
  (md : string) (rep : option string) :
  editorRef s = Some d -> selectionRangeRef s = Some range ->
  let d' := insertHTML range (toInlineAwareHtml (or_empty rep)) d in
  applyAiReplacement md rep s
  = setToast (Some applied_toast)
      (setMarkdown (turndown (innerHTML d'))
         (set_editor d'
            (set_aiUndo (Some {| html := innerHTML d; markdown_ := md |}) s))).
Proof.
  intros He Hr. unfold applyAiReplacement. rewrite He, Hr. reflexivity.
Qed.

(** The undo action puts the stored markup and markdown back and drops
    the snapshot and the toast. *)
Lemma undo_restores_snapshot (s : State P) (d : Dom) (range : Range)
  (md : string) (rep : option string) :
  editorRef s = Some d -> selectionRangeRef s = Some range ->
  let s' := clickToastAction (applyAiReplacement md rep s) in
  editorRef s'
  = Some (set_innerHTML (innerHTML d)
            (insertHTML range (toInlineAwareHtml (or_empty rep)) d))
  /\ markdown s' = md
  /\ aiUndoRef s' = None
  /\ toast s' = None.
Proof.
  intros He Hr. cbn zeta.
  rewrite (applyAiReplacement_applied s d range md rep He Hr).
  repeat split.
Qed.

Lemma submitAi_begin_sends (s : State P) (d : Dom) (range : Range) :
  editorRef s = Some d -> selectionRangeRef s = Some range ->
  trim (aiPrompt s) <> EmptyString ->
  exists req, submitAi_begin s = (setAiLoading true s, Some req).
Proof.
  intros He Hr Hp. unfold submitAi_begin. rewrite He, Hr.
  destruct (trim (aiPrompt s)); [contradiction|]. eexists. reflexivity.
Qed.

End SessionFacts.

(** C1 (as amended).  In a session with a stored range, a mounted editor
    and a prompt that is not blank: when the request is rejected, answered
    with a status that is not ok, or answered with a body that is no JSON,
    the failure notice is shown and content, markdown and snapshot stay as
    they were.  When the response is ok its [replacementText] is applied,
    and an empty or missing one is applied as the empty string: the
    snapshot is taken, the fragment of the empty string is inserted at the
    stored range, the markdown is derived again and the notice of an applied
    edit with its undo action is shown. *)
Theorem submitAi_outcomes {P : Page.Platform}
  (s : Page.State P) (d : Page.Dom) (range : Page.Range) :
  Page.editorRef s = Some d ->
  Page.selectionRangeRef s = Some range ->
  Js.trim (Page.aiPrompt s) <> EmptyString ->
  (forall out,
      (out = Page.FetchRejected
       \/ (exists j, out = Page.FetchResponse false j)
       \/ out = Page.FetchResponse true None) ->
      let s' := Page.submitAi out s in
      Page.editorRef s' = Page.editorRef s
      /\ Page.markdown s' = Page.markdown s
      /\ Page.aiUndoRef s' = Page.aiUndoRef s
      /\ Page.toast s' = Some Page.failed_toast)
  /\ (forall text,
        (text = None \/ text = Some EmptyString) ->
        let s' :=
          Page.submitAi
            (Page.FetchResponse true (Some {| Page.replacementText := text |})) s in
        let d' := Page.insertHTML range (Page.toInlineAwareHtml EmptyString) d in
        Page.editorRef s' = Some d'
        /\ Page.markdown s' = Page.turndown (Page.innerHTML d')
        /\ Page.aiUndoRef s'
           = Some {| Page.html := Page.innerHTML d;
                     Page.markdown_ := Page.markdown s |}
        /\ Page.toast s' = Some Page.applied_toast).
Proof.
  intros He Hr Hp.
  destruct (submitAi_begin_sends s d range He Hr Hp) as [req Hreq].
  split.
  - intros out Hout. unfold Page.submitAi. rewrite Hreq.
    destruct Hout as [-> | [[j ->] | ->]]; repeat split.
  - intros text Htext. unfold Page.submitAi. rewrite Hreq.
    unfold Page.submitAi_settle. cbn [Page.replacementText].
    rewrite (applyAiReplacement_applied (Page.setAiLoading true s) d range
               (Page.markdown s) text He Hr).
    destruct Htext as [-> | ->]; repeat split.
Qed.

Lemma submitAi_outcomes_witness :
  Page.toast
    (Page.submitAi (P := Plain.plain) Page.FetchRejected
       (Plain.editing "The quick fox" (4, 9) "shorten"))
  = Some Page.failed_toast
  /\ Page.editorRef
       (Page.submitAi (P := Plain.plain) (Plain.reply (Some EmptyString))
          (Plain.editing "The quick fox" (4, 9) "shorten"))
     = Some (Page.insertHTML (Platform := Plain.plain) (4, 9)
               (Page.toInlineAwareHtml (P := Plain.plain) EmptyString)
               "The quick fox").
Proof.
  destruct (submitAi_outcomes (P := Plain.plain)
              (Plain.editing "The quick fox" (4, 9) "shorten")
              "The quick fox" (4, 9) eq_refl eq_refl) as [Hfail Hok].
  - simpl. discriminate.
  - split.
    + apply (Hfail Page.FetchRejected). left. reflexivity.
    + apply (Hok (Some EmptyString)). right. reflexivity.
Defined.

(** C1 (as stated) fails: an ok response with an empty [replacementText],
    or with none, is not treated as a failure.  The selected word is
    deleted from the document and the notice of an applied edit is shown. *)
Lemma submitAi_applies_empty_replacement :
  Page.editorRef
    (Page.submitAi (P := Plain.plain) (Plain.reply (Some EmptyString))
       (Plain.editing "The quick fox" (4, 9) "shorten"))
  = Some "The  fox"
  /\ Page.markdown
       (Page.submitAi (P := Plain.plain) (Plain.reply (Some EmptyString))
          (Plain.editing "The quick fox" (4, 9) "shorten"))
     = "The  fox"
  /\ Page.toast
       (Page.submitAi (P := Plain.plain) (Plain.reply (Some EmptyString))
          (Plain.editing "The quick fox" (4, 9) "shorten"))
     = Some Page.applied_toast
  /\ Page.submitAi (P := Plain.plain) (Plain.reply None)
       (Plain.editing "The quick fox" (4, 9) "shorten")
     = Page.submitAi (P := Plain.plain) (Plain.reply (Some EmptyString))
         (Plain.editing "The quick fox" (4, 9) "shorten")
  /\ Page.applied_toast <> Page.failed_toast.
Proof. repeat split. discriminate. Qed.

(** C2, at the input on which the code breaks it.  The user types while the
    request is in flight; the continuation of [submitAi] applies the reply
    with the [applyAiReplacement] of the render in which the form was
    submitted, so the snapshot pairs the markup of now with the markdown of
    then.  The undo puts the markup back, but sets the markdown to the
    value it had before the typing, not to the one it had immediately
    before the replacement. *)
Theorem undo_after_typing_restores_stale_markdown :
  Page.editorRef Plain.typing_before_reply = Some "ab"
  /\ Page.markdown Plain.typing_before_reply = "ab"
  /\ Page.editorRef Plain.typing_applied = Some "abx"
  /\ Page.aiUndoRef Plain.typing_applied
     = Some {| Page.html := "ab"; Page.markdown_ := "a" |}
  /\ Page.editorRef Plain.typing_undone = Some "ab"
  /\ Page.markdown Plain.typing_undone = "a"
  /\ Page.markdown Plain.typing_undone <> Page.markdown Plain.typing_before_reply.
Proof. repeat split. discriminate. Qed.

(** C9 (as amended).  The snapshot is dropped when the undo action consumes
    it and overwritten when a replacement is applied.  When the toast
    expires only the toast is cleared; the snapshot stays in [aiUndoRef],
    out of reach because the action went with the toast. *)
Theorem undo_snapshot_lifetime {P : Page.Platform}
  (s : Page.State P) (d : Page.Dom) (range : Page.Range)
  (md : string) (rep : option string) :
  Page.editorRef s = Some d ->
  Page.selectionRangeRef s = Some range ->
  Page.aiUndoRef (Page.applyAiReplacement md rep s)
  = Some {| Page.html := Page.innerHTML d; Page.markdown_ := md |}
  /\ Page.aiUndoRef (Page.clickToastAction (Page.applyAiReplacement md rep s))
     = None
  /\ Page.aiUndoRef (Page.toastTimeout (Page.applyAiReplacement md rep s))
     = Some {| Page.html := Page.innerHTML d; Page.markdown_ := md |}
  /\ Page.toast (Page.toastTimeout (Page.applyAiReplacement md rep s)) = None
  /\ Page.clickToastAction (Page.toastTimeout (Page.applyAiReplacement md rep s))
     = Page.toastTimeout (Page.applyAiReplacement md rep s).
Proof.
  intros He Hr.
  rewrite (applyAiReplacement_applied s d range md rep He Hr).
  repeat split.
Qed.

Lemma undo_snapshot_lifetime_witness :
  Page.aiUndoRef
    (Page.applyAiReplacement (P := Plain.plain) "The quick fox" (Some "brown")
       (Plain.editing "The quick fox" (4, 9) "colour"))
  = Some {| Page.html := "The quick fox"; Page.markdown_ := "The quick fox" |}
  /\ Page.aiUndoRef
       (Page.clickToastAction
          (Page.applyAiReplacement (P := Plain.plain) "The quick fox"
             (Some "brown") (Plain.editing "The quick fox" (4, 9) "colour")))
     = None.
Proof.
  destruct (undo_snapshot_lifetime (P := Plain.plain)
              (Plain.editing "The quick fox" (4, 9) "colour")
              "The quick fox" (4, 9) "The quick fox" (Some "brown")
              eq_refl eq_refl) as (H1 & H2 & _).
  exact (conj H1 H2).
Defined.

(** C9 (as stated) fails: after the toast of an applied edit has expired
    the snapshot is still stored. *)
Lemma snapshot_survives_toast_expiry :
  Page.toast
    (Page.toastTimeout
       (Page.submitAi (P := Plain.plain) (Plain.reply (Some "brown"))
          (Plain.editing "The quick fox" (4, 9) "colour")))
  = None
  /\ Page.aiUndoRef
       (Page.toastTimeout
          (Page.submitAi (P := Plain.plain) (Plain.reply (Some "brown"))
             (Plain.editing "The quick fox" (4, 9) "colour")))
     = Some {| Page.html := "The quick fox"; Page.markdown_ := "The quick fox" |}.
Proof. repeat split. Qed.

(** ** The route *)

Section RouteFacts.

Import Js Route.

Variable number : Type.
Variable number_of_nat : nat -> number.
Variable number_add : number -> number -> number.
Variable number_toString : number -> string.

(** A response of [read_result] has status 200 and carries the trimmed
    text of a model output that was not empty. *)
Lemma read_result_shape (r : ParseResult) (resp : HttpResponse) :
  read_result r = Some resp ->
  exists text, text <> EmptyString
               /\ resp = json (ReplacementBody (trim text)) 200.
Proof.
  unfold read_result.
  destruct (result_status r =? "incomplete")%string; [discriminate|].
  destruct (output_parsed r) as [[[[|c t]|]]|]; try discriminate.
  intros [= <-]. exists (String c t). split; [discriminate | reflexivity].
Qed.

(** Every response of the route is either the trimmed text of a model
    output that was not empty, with status 200, or an error with status
    400 or 500. *)
Lemma POST_response_shape env request_json responses_parse :
  let resp :=
    POST number number_of_nat number_add number_toString
         env request_json responses_parse in
  (exists text, text <> EmptyString
                /\ resp = json (ReplacementBody (trim text)) 200)
  \/ (exists e, body resp = ErrorBody e
                /\ (status resp = 400 \/ status resp = 500)).
Proof.
  cbn zeta. unfold POST.
  destruct (OPENAI_API_KEY env) as [[|k key]|];
    try (right; eexists; split; [reflexivity | right; reflexivity]).
  destruct request_json as [b|];
    [|right; eexists; split; [reflexivity | left; reflexivity]].
  destruct (documentText b), (selectedText b), (userPrompt b);
    try (right; eexists; split; [reflexivity | left; reflexivity]).
  destruct (responses_parse _) as [r|];
    [|right; eexists; split; [reflexivity | right; reflexivity]].
  destruct (read_result r) as [resp|] eqn:E;
    [|right; eexists; split; [reflexivity | right; reflexivity]].
  left. exact (read_result_shape r resp E).
Qed.

End RouteFacts.

(** C8, at the input on which the code breaks it.  The model completes
    and answers with a single blank; the handler tests the answer before
    it trims it, so the response has status 200 and an empty
    [replacementText]. *)
Theorem POST_blank_answer_is_empty_success :
  Plain.POST_Z Plain.env_with_key (Some Plain.body_without_selection)
    (Plain.model_answers " ")
  = {| Route.status := 200; Route.body := Route.ReplacementBody EmptyString |}.
Proof. reflexivity. Qed.

(** C10.  With the key configured and the three required strings present,
    the handler does not reject a body whose [selection], or any field of
    it, is missing: it goes on to the call of the model with the prompt
    built from the defaults [start = 0], [end = start + selectedText.length],
    [length = selectedText.length], [percentThroughDocument = 0] and empty
    context strings. *)
Theorem POST_selection_defaults
  (number : Type) (number_of_nat : nat -> number)
  (number_add : number -> number -> number) (number_toString : number -> string)
  (env : Route.Env) (b : Route.RequestBody number)
  (responses_parse : Route.ParseCall -> option Route.ParseResult)
  (c : ascii) (key documentText selectedText userPrompt : string) :
  Route.OPENAI_API_KEY env = Some (String c key) ->
  Route.documentText b = Some documentText ->
  Route.selectedText b = Some selectedText ->
  Route.userPrompt b = Some userPrompt ->
  let sel := Route.selection b in
  let p := Route.position number number_of_nat number_add sel selectedText in
  let len := number_of_nat (length selectedText) in
  (Route.field number Route.start sel = None ->
   Route.pos_start p = number_of_nat 0)
  /\ (Route.field number Route.end_ sel = None ->
      Route.pos_end p = number_add (Route.pos_start p) len)
  /\ (Route.field number Route.length_ sel = None -> Route.pos_length p = len)
  /\ (Route.field number Route.percentThroughDocument sel = None ->
      Route.pos_percent p = number_of_nat 0)
  /\ (Route.field number Route.contextBefore sel = None ->
      Route.pos_contextBefore p = EmptyString)
  /\ (Route.field number Route.contextAfter sel = None ->
      Route.pos_contextAfter p = EmptyString)
  /\ (sel = None ->
      p = {| Route.pos_start := number_of_nat 0;
             Route.pos_end := number_add (number_of_nat 0) len;
             Route.pos_length := len;
             Route.pos_percent := number_of_nat 0;
             Route.pos_contextBefore := EmptyString;
             Route.pos_contextAfter := EmptyString |})
  /\ Route.POST number number_of_nat number_add number_toString
       env (Some b) responses_parse
     = match
         responses_parse
           {| Route.apiKey := String c key;
              Route.model :=
                if Js.truthy (Route.OPENAI_MODEL env)
                then Js.or_empty (Route.OPENAI_MODEL env) else "gpt-5.2";
              Route.instructions := Route.system_instructions;
              Route.input :=
                Route.build_prompt number number_toString userPrompt
                  selectedText p (Route.documentMarkdown b) documentText |}
       with
       | Some r =>
           match Route.read_result r with
           | Some resp => resp
           | None => Route.failure
           end
       | None => Route.failure
       end.
Proof.
  intros Hkey Hdoc Hsel Hprompt sel p len.
  repeat apply conj; subst p len; unfold Route.position;
    cbn [Route.pos_start Route.pos_end Route.pos_length Route.pos_percent
         Route.pos_contextBefore Route.pos_contextAfter].
  1-6: intros ->; reflexivity.
  - intros ->. reflexivity.
  - unfold Route.POST. rewrite Hkey, Hdoc, Hsel, Hprompt. reflexivity.
Qed.

Lemma POST_selection_defaults_witness :
  Route.position Z Z.of_nat Z.add None "quick"
  = {| Route.pos_start := 0%Z;
       Route.pos_end := 5%Z;
       Route.pos_length := 5%Z;
       Route.pos_percent := 0%Z;
       Route.pos_contextBefore := EmptyString;
       Route.pos_contextAfter := EmptyString |}
  /\ Plain.POST_Z Plain.env_with_key (Some Plain.body_without_selection)
       (Plain.model_answers "brown")
     = {| Route.status := 200; Route.body := Route.ReplacementBody "brown" |}.
Proof.
  destruct (POST_selection_defaults Z Z.of_nat Z.add Plain.show_Z
              Plain.env_with_key Plain.body_without_selection
              (Plain.model_answers "brown") "s"%char "k-test"
              "The quick fox" "quick" "shorten"
              eq_refl eq_refl eq_refl eq_refl)
    as (_ & _ & _ & _ & _ & _ & Hp & Hpost).
  split.
  - exact (Hp eq_refl).
  - unfold Plain.POST_Z. rewrite Hpost. reflexivity.
Defined.

(** ** Rounding *)

Section FloatFacts.

Import Float.
Local Open Scope Z_scope.

Lemma round_half_even_spec (n d : Z) :
  0 < d -> Z.abs (2 * (round_half_even n d * d - n)) <= d.
Proof.
  intros Hd. unfold round_half_even.
  pose proof (Z.div_mod n d ltac:(lia)) as Hn.
  pose proof (Z.mod_pos_bound n d Hd) as Hr.
  set (q := n / d) in *. set (r := n mod d) in *.
  destruct (Z.ltb_spec (2 * r) d); [nia|].
  destruct (Z.ltb_spec d (2 * r)); [nia|].
  destruct (Z.even q); nia.
Qed.

Lemma round_half_even_range (n d M : Z) :
  0 < d -> 0 <= n -> n <= d * M -> 0 <= round_half_even n d <= M.
Proof.
  intros Hd Hn HM. unfold round_half_even.
  pose proof (Z.div_mod n d ltac:(lia)) as En.
  pose proof (Z.mod_pos_bound n d Hd) as Hr.
  pose proof (Z.div_pos n d Hn Hd) as Hq.
  set (q := n / d) in *. set (r := n mod d) in *.
  assert (q <= M) by nia.
  assert (0 < r -> q + 1 <= M) by nia.
  destruct (Z.ltb_spec (2 * r) d); [lia|].
  destruct (Z.ltb_spec d (2 * r)); [lia|].
  destruct (Z.even q); lia.
Qed.

Lemma round_half_even_exact (d M : Z) :
  0 < d -> round_half_even (M * d) d = M.
Proof.
  intros Hd. unfold round_half_even.
  rewrite Z.div_mul, Z.mod_mul by lia.
  destruct (Z.ltb_spec (2 * 0) d); [reflexivity | lia].
Qed.

Lemma round_half_up_spec (n d : Z) :
  0 < d -> 2 * n - d < 2 * (round_half_up n d * d) <= 2 * n + d.
Proof.
  intros Hd. unfold round_half_up.
  pose proof (Z.div_mod (2 * n + d) (2 * d) ltac:(lia)) as En.
  pose proof (Z.mod_pos_bound (2 * n + d) (2 * d) ltac:(lia)) as Hr.
  set (q := (2 * n + d) / (2 * d)) in *. nia.
Qed.

(** [round64] is the division of the primitive binary64 floats, here on
    every quotient of two integers up to 48, on every number of thousandths
    over 1000, and on operands near the limits of the exactly represented
    integers. *)
Lemma round64_agrees_with_primitive_division :
  forallb (fun a => forallb (agrees_with_primitive_division a)
                      (map Z.of_nat (seq 1 48)))
    (map Z.of_nat (seq 0 49)) = true
  /\ forallb (fun n => agrees_with_primitive_division n 1000)
       (map Z.of_nat (seq 0 1001)) = true
  /\ forallb (fun ab => agrees_with_primitive_division (fst ab) (snd ab))
       [ (1, 9007199254740991); (9007199254740991, 3);
         (4503599627370497, 9007199254740991); (536870911, 536870912);
         (1, 8796093022208); (8796093022207, 8796093022208) ] = true.
Proof. repeat split; vm_compute; reflexivity. Qed.

(** The exponent of a quotient that is at most one. *)
Lemma log2_floor_unit (a b : Z) :
  0 < a <= b -> log2_floor a b <= 0 /\ (a < b -> log2_floor a b <= -1).
Proof.
  intros Hab. unfold log2_floor.
  pose proof (Z.log2_le_mono a b ltac:(lia)) as Hk.
  destruct (Z.leb_spec 0 (Z.log2 a - Z.log2 b)) as [H0|H0].
  - replace (Z.log2 a - Z.log2 b) with 0 by lia.
    change (2 ^ 0) with 1.
    destruct (Z.leb_spec (b * 1) a); lia.
  - destruct (Z.leb_spec b (a * 2 ^ (- (Z.log2 a - Z.log2 b)))); lia.
Qed.

(** The double nearest to a quotient [a / b] that is at most one: a
    significand [m] over a power of two [2 ^ sh], off by at most half a
    unit in the last place. *)
Lemma round64_unit (a b : Z) :
  0 < a <= b ->
  exists m sh,
    round64 a b = Qmake m (Z.to_pos (2 ^ sh))
    /\ 52 <= sh
    /\ 0 <= m <= 2 ^ sh
    /\ Z.abs (2 * (m * b - a * 2 ^ sh)) <= b
    /\ (a < b -> 53 <= sh)
    /\ (a = b -> m = 2 ^ sh).
Proof.
  intros Hab. destruct (log2_floor_unit a b Hab) as [He He'].
  unfold round64.
  destruct (Z.leb_spec a 0); [lia|].
  set (sh := 52 - log2_floor a b) in *.
  destruct (Z.leb_spec 0 sh); [|lia].
  assert (Hpow : 0 < 2 ^ sh) by (apply Z.pow_pos_nonneg; lia).
  exists (round_half_even (a * 2 ^ sh) b), sh.
  split; [reflexivity|]. split; [lia|]. split.
  { apply round_half_even_range; nia. }
  split.
  { apply round_half_even_spec. lia. }
  split; [lia|].
  intros ->. rewrite Z.mul_comm. apply round_half_even_exact. lia.
Qed.

Lemma round64_unit_range (a b : Z) :
  0 <= a <= b -> 0 < b -> (0 <= round64 a b <= 1)%Q.
Proof.
  intros Hab Hb.
  destruct (Z.eq_dec a 0) as [->|Ha].
  - unfold round64. cbn. split; discriminate.
  - destruct (round64_unit a b ltac:(lia)) as (m & sh & -> & Hsh & Hm & _).
    assert (Hpow : 0 < 2 ^ sh) by (apply Z.pow_pos_nonneg; lia).
    unfold Qle. cbn [Qnum Qden]. rewrite Z2Pos.id by lia. lia.
Qed.

Lemma toFixed3_div_range (a b : Z) :
  0 <= a <= b -> 0 < b -> 0 <= toFixed3 (div a b) <= 1000.
Proof.
  intros Hab Hb. unfold div, toFixed3.
  destruct (Z.eq_dec a 0) as [->|Ha]; [cbn; lia|].
  destruct (round64_unit a b ltac:(lia)) as (m & sh & -> & Hsh & Hm & _).
  cbn [Qnum Qden].
  assert (Hpow : 0 < 2 ^ sh) by (apply Z.pow_pos_nonneg; lia).
  rewrite Z2Pos.id by lia.
  pose proof (round_half_up_spec (m * 1000) (2 ^ sh) Hpow) as Hn.
  nia.
Qed.

(** Dividing and then printing with three decimals rounds the exact
    quotient to a nearest thousandth: the error of the division is too
    small to move the result to another one. *)
Lemma toFixed3_div (a b : Z) :
  0 <= a <= b -> 0 < b -> b <= 2 ^ 43 ->
  nearest_thousandth a b (toFixed3 (div a b)).
Proof.
  intros Hab Hb0 Hb. unfold div, toFixed3, nearest_thousandth.
  destruct (Z.eq_dec a 0) as [->|Ha]; [cbn; lia|].
  destruct (round64_unit a b ltac:(lia))
    as (m & sh & -> & Hsh & Hm & Herr & Hlt & Heq).
  cbn [Qnum Qden].
  assert (Hpow : 0 < 2 ^ sh) by (apply Z.pow_pos_nonneg; lia).
  rewrite Z2Pos.id by lia.
  pose proof (round_half_up_spec (m * 1000) (2 ^ sh) Hpow) as Hn.
  set (n := round_half_up (m * 1000) (2 ^ sh)) in *.
  set (D := 2 ^ sh) in *.
  assert (Hbig : 1000 * Z.abs (2 * (m * b - a * D)) < D).
  { destruct (Z.eq_dec a b) as [->|Hne].
    - rewrite (Heq eq_refl). replace (D * b - b * D) with 0 by ring. cbn. lia.
    - assert (2 ^ 53 <= D).
      { subst D. apply Z.pow_le_mono_r; lia. }
      assert (1000 * 2 ^ 43 < 2 ^ 53) by (cbn; lia).
      nia. }
  assert (Hk : D * (2 * (n * b - 1000 * a))
               = b * (2 * (n * D) - 2 * (m * 1000))
                 + 1000 * (2 * (m * b - a * D))) by ring.
  assert (Hlin : Z.abs (D * (2 * (n * b - 1000 * a))) < D * (b + 1)) by nia.
  assert (Hq : Z.abs (2 * (n * b - 1000 * a)) < b + 1) by nia.
  lia.
Qed.

End FloatFacts.

(** [percentThroughDocument] is [0] when the plain text is empty.
    Otherwise, for a selection whose measured end is not behind the end of
    the plain text, it is the double written [n / 1000] where [n / 1000] is
    the quotient [end / length] rounded to a nearest thousandth, and it lies
    between [0] and [1].  The code does not check that the measured end is
    inside the plain text. *)
Theorem percentThroughDocument_rounded {P : Page.Platform}
  (d : Page.Dom) (range : Page.Range) :
  let m := Page.getSelectionMeta (Some d) range in
  let len := length (Page.innerText d) in
  (len = 0 -> Page.percentThroughDocument m = 0%Q)
  /\ (0 < len -> Page.end_ m <= len -> (Z.of_nat len <= 2 ^ 43)%Z ->
      exists n : Z,
        Page.percentThroughDocument m = Float.Number_of_fixed3 n
        /\ Float.nearest_thousandth (Z.of_nat (Page.end_ m)) (Z.of_nat len) n)
  /\ (Page.end_ m <= len ->
      (0 <= Page.percentThroughDocument m <= 1)%Q).
Proof.
  cbn zeta. cbn [Page.getSelectionMeta Page.percentThroughDocument Page.end_].
  set (len := length (Page.innerText d)).
  set (e := length (Page.before_toString d range)
            + length (Page.range_toString d range)).
  repeat apply conj.
  - intros ->. reflexivity.
  - intros Hpos Hend Hlen.
    destruct (Nat.eqb_spec len 0) as [E|_]; [lia|].
    eexists. split; [reflexivity|].
    apply toFixed3_div; lia.
  - intros Hend.
    destruct (Nat.eqb_spec len 0) as [E|Hne]; [split; discriminate|].
    unfold Float.Number_of_fixed3.
    pose proof (toFixed3_div_range (Z.of_nat e) (Z.of_nat len)
                  ltac:(lia) ltac:(lia)).
    apply round64_unit_range; lia.
Qed.

Lemma percentThroughDocument_rounded_witness :
  (exists n : Z,
      Page.percentThroughDocument
        (Page.getSelectionMeta (P := Plain.plain) (Some "The quick fox") (4, 9))
      = Float.Number_of_fixed3 n
      /\ Float.nearest_thousandth 9 13 n)
  /\ (0 <= Page.percentThroughDocument
             (Page.getSelectionMeta (P := Plain.plain) (Some "The quick fox")
                (4%nat, 9%nat))
      <= 1)%Q.
Proof.
  destruct (percentThroughDocument_rounded (P := Plain.plain)
              "The quick fox" (4, 9)) as (_ & Hround & Hrange).
  split.
  - apply Hround; simpl; lia.
  - apply Hrange. simpl. lia.
Defined.

(** C5, at an input on which the code breaks it.  The end offset is
    measured on [Range.toString] and divided by the length of [innerText].
    In the list of the two items [a] and [b] the text nodes up to the end of
    the selected [b] are a line feed, [a], a line feed and [b], four
    characters, and the plain text is [a], a line feed, [b], three
    characters: [percentThroughDocument] is the double written [1.333],
    which is more than [1]. *)
Theorem percentThroughDocument_exceeds_one :
  let d := Lined.BulletList ["a"; "b"] in
  let range := Lined.second_line in
  let m := Page.getSelectionMeta (P := Lined.lined) (Some d) range in
  Page.innerHTML (Platform := Lined.lined) d
  = "<ul>" ++ String Js.LF ("<li>a</li>" ++ String Js.LF ("<li>b</li>"
      ++ String Js.LF ("</ul>" ++ String Js.LF EmptyString)))
  /\ Page.innerText (Platform := Lined.lined) d = "a" ++ String Js.LF "b"
  /\ Page.range_toString (Platform := Lined.lined) d range = "b"
  /\ Page.before_toString (Platform := Lined.lined) d range
     = String Js.LF ("a" ++ String Js.LF EmptyString)
  /\ Page.end_ m = 4
  /\ length (Page.innerText (Platform := Lined.lined) d) = 3
  /\ Page.percentThroughDocument m = Float.Number_of_fixed3 1333
  /\ Float.nearest_thousandth 4 3 1333
  /\ (1 < Page.percentThroughDocument m)%Q.
Proof.
  cbn zeta.
  repeat split; try (vm_compute; reflexivity).
  unfold Float.nearest_thousandth. lia.
Qed.

(** * Further properties of the code *)

(** ** More on strings *)

Section MoreStringFacts.

Import Js.

Lemma substring_split (s : string) (n m1 m2 : nat) :
  substring n m1 s ++ substring (n + m1) m2 s = substring n (m1 + m2) s.
Proof.
  revert n m1. induction s as [|c s IH]; intros n m1.
  - destruct n, m1, m2; reflexivity.
  - destruct n as [|n].
    + destruct m1 as [|m1].
      * reflexivity.
      * cbn [Nat.add substring append]. f_equal. exact (IH 0 m1).
    + cbn [Nat.add substring]. exact (IH n m1).
Qed.

Lemma substring_length (s : string) (a n : nat) :
  length (substring a n s) = Nat.min n (length s - a).
Proof.
  revert a n. induction s as [|c s IH]; intros a n.
  - destruct a, n; reflexivity.
  - destruct a as [|a].
    + destruct n as [|n]; [reflexivity|].
      cbn [substring length]. rewrite IH. cbn [Nat.sub]. lia.
    + cbn [substring length Nat.sub]. apply IH.
Qed.

Lemma slice_length (a b : nat) (s : string) :
  length (slice a b s) = Nat.min b (length s) - Nat.min a (length s).
Proof. unfold slice. rewrite substring_length. lia. Qed.

Lemma slice_substring (a b : nat) (s : string) :
  a <= b <= length s -> slice a b s = substring a (b - a) s.
Proof.
  intros H. unfold slice.
  now rewrite (Nat.min_l a), (Nat.min_l b) by lia.
Qed.

Lemma prefix_split (p s : string) :
  prefix p s = true -> s = p ++ substring (length p) (length s - length p) s.
Proof.
  revert s. induction p as [|a p IH]; intros s H.
  - cbn [length append]. rewrite Nat.sub_0_r. symmetry. apply substring_all.
  - destruct s as [|b s]; [discriminate|].
    rewrite prefix_cons in H. apply andb_true_iff in H as [Hab Hp].
    apply Ascii.eqb_eq in Hab. subst b.
    cbn [length append substring Nat.sub]. f_equal. now apply IH.
Qed.

Lemma endsWith_split (t s : string) :
  endsWith t s = true -> s = substring 0 (length s - length t) s ++ t.
Proof.
  unfold endsWith. intros H. apply andb_true_iff in H as [Hle Heq].
  apply Nat.leb_le in Hle. apply String.eqb_eq in Heq.
  transitivity (substring 0 (length s - length t) s
                ++ substring (0 + (length s - length t)) (length t) s).
  - rewrite (substring_split s 0 (length s - length t) (length t)).
    replace (length s - length t + length t) with (length s) by lia.
    symmetry. apply substring_all.
  - cbn [Nat.add]. now rewrite Heq.
Qed.

(** *** White space at both ends *)

Lemma trimEnd_split (s : string) :
  exists ws, every is_space ws = true /\ s = trimEnd s ++ ws.
Proof.
  induction s as [|c s (ws & Hws & Hs)].
  - exists EmptyString. split; reflexivity.
  - cbn [trimEnd]. destruct (trimEnd s) as [|c' t] eqn:E.
    + cbn [append] in Hs. subst s.
      destruct (is_space c) eqn:Hc.
      * exists (String c ws). cbn [every]. now rewrite Hc, Hws.
      * exists ws. split; [exact Hws | reflexivity].
    + exists ws. split; [exact Hws|]. cbn [append]. f_equal. exact Hs.
Qed.

Lemma trimEnd_cons_keep (c : ascii) (s : string) :
  is_space c = false -> trimEnd (String c s) = String c (trimEnd s).
Proof. intros Hc. cbn [trimEnd]. destruct (trimEnd s); now rewrite ?Hc. Qed.

Lemma trimEnd_idempotent (s : string) : trimEnd (trimEnd s) = trimEnd s.
Proof.
  induction s as [|c s IH]; [reflexivity|].
  cbn [trimEnd]. destruct (trimEnd s) as [|c' t] eqn:E.
  - destruct (is_space c) eqn:Hc; [reflexivity|].
    cbn [trimEnd]. now rewrite Hc.
  - cbn [trimEnd] in *. rewrite IH. reflexivity.
Qed.

Lemma trimStart_head (s : string) :
  trimStart s = EmptyString
  \/ exists c t, trimStart s = String c t /\ is_space c = false.
Proof.
  induction s as [|c s IH]; [now left|].
  cbn [trimStart]. destruct (is_space c) eqn:Hc; [exact IH|].
  right. now exists c, s.
Qed.

Lemma trimStart_spaces_app (ws s : string) :
  every is_space ws = true -> trimStart (ws ++ s) = trimStart s.
Proof.
  induction ws as [|c ws IH]; [reflexivity|].
  cbn [every]. intros H. apply andb_true_iff in H as [Hc Hws].
  cbn [append trimStart]. rewrite Hc. now apply IH.
Qed.

Lemma trimStart_app (s t : string) :
  trimStart s <> EmptyString -> trimStart (s ++ t) = trimStart s ++ t.
Proof.
  induction s as [|c s IH]; [contradiction|].
  cbn [append trimStart]. destruct (is_space c); [exact IH | reflexivity].
Qed.

Lemma trimStart_all_spaces (s : string) :
  trimStart s = EmptyString -> every is_space s = true.
Proof.
  induction s as [|c s IH]; [reflexivity|].
  cbn [trimStart every]. destruct (is_space c); [exact IH | discriminate].
Qed.

Lemma trimStart_spaces (ws : string) :
  every is_space ws = true -> trimStart ws = EmptyString.
Proof.
  intros H. rewrite <- (app_nil_r ws). now rewrite trimStart_spaces_app.
Qed.

Lemma every_app (p : ascii -> bool) (s t : string) :
  every p (s ++ t) = every p s && every p t.
Proof.
  induction s as [|c s IH]; [reflexivity|].
  cbn [append every]. now rewrite IH, andb_assoc.
Qed.

(** White space around a text does not change what [trim] returns. *)
Lemma trim_surrounded (ws1 s ws2 : string) :
  every is_space ws1 = true -> every is_space ws2 = true ->
  trim (ws1 ++ s ++ ws2) = trim s.
Proof.
  intros H1 H2. unfold trim. rewrite (trimStart_spaces_app ws1 _ H1).
  destruct (trimStart s) as [|c t] eqn:E.
  - rewrite trimStart_spaces; [reflexivity|].
    rewrite every_app, H2, (trimStart_all_spaces s E). reflexivity.
  - rewrite trimStart_app by (rewrite E; discriminate).
    rewrite E. now apply trimEnd_app_spaces.
Qed.

Lemma trim_idempotent (s : string) : trim (trim s) = trim s.
Proof.
  unfold trim. destruct (trimStart_head s) as [E | (c & t & E & Hc)]; rewrite E.
  - reflexivity.
  - rewrite (trimEnd_cons_keep c t Hc). cbn [trimStart]. rewrite Hc.
    rewrite <- (trimEnd_cons_keep c t Hc). apply trimEnd_idempotent.
Qed.

Lemma no_dollar_no_dollars (s : string) :
  includes "$" s = false -> includes "$$" s = false.
Proof.
  induction s as [|a s IH]; [reflexivity|].
  rewrite includes_char_cons. intros H. apply orb_false_iff in H as [Ha Hs].
  cbn [includes]. rewrite (IH Hs), orb_false_r.
  rewrite prefix_cons, Ha. reflexivity.
Qed.

End MoreStringFacts.

(** ** More on the selection metadata *)

(** X1.  For every editor and range the metadata satisfies
    [end = start + length], and neither context string is longer than 500
    characters; the prefix context is not longer than [start]. *)
Theorem getSelectionMeta_invariants {P : Page.Platform}
  (editor : option Page.Dom) (range : Page.Range) :
  let m := Page.getSelectionMeta editor range in
  Page.end_ m = Page.start m + Page.length_ m
  /\ length (Page.contextBefore m) <= 500
  /\ length (Page.contextAfter m) <= 500
  /\ length (Page.contextBefore m) <= Page.start m.
Proof.
  destruct editor as [d|]; cbn zeta.
  - cbn [Page.getSelectionMeta Page.start Page.end_ Page.length_
         Page.contextBefore Page.contextAfter].
    rewrite !slice_length. repeat split; lia.
  - cbn. repeat split; lia.
Qed.

(** X2.  When the measured end lies inside the plain text, the prefix
    context is the [min 500 start] characters of the plain text that end at
    the offset [start], and the suffix context the [min 500 (len - end)]
    characters that begin at the offset [end].  The two enclose the selected
    text, all three together being one contiguous piece of the plain text,
    whenever the selected text stands in the plain text at the measured
    offsets, which the code does not check. *)
Theorem getSelectionMeta_context_windows {P : Page.Platform}
  (d : Page.Dom) (range : Page.Range) :
  let m := Page.getSelectionMeta (Some d) range in
  let plainText := Page.innerText d in
  let n1 := Nat.min 500 (Page.start m) in
  let n2 := Nat.min 500 (length plainText - Page.end_ m) in
  Page.end_ m <= length plainText ->
  Page.contextBefore m = substring (Page.start m - 500) n1 plainText
  /\ Page.contextAfter m = substring (Page.end_ m) n2 plainText
  /\ length (Page.contextBefore m) = n1
  /\ length (Page.contextAfter m) = n2
  /\ (substring (Page.start m) (Page.length_ m) plainText
      = Page.range_toString d range ->
      Page.contextBefore m ++ Page.range_toString d range
        ++ Page.contextAfter m
      = substring (Page.start m - 500) (n1 + (Page.length_ m + n2))
          plainText).
Proof.
  cbn zeta.
  cbn [Page.getSelectionMeta Page.contextBefore Page.contextAfter
       Page.start Page.end_ Page.length_].
  set (plainText := Page.innerText d).
  set (a := length (Page.before_toString d range)).
  set (n := length (Page.range_toString d range)).
  intros Hend.
  rewrite !slice_substring by lia.
  replace (a - Nat.max 0 (a - 500)) with (Nat.min 500 a) by lia.
  replace (Nat.max 0 (a - 500)) with (a - 500) by lia.
  replace (Nat.min (length plainText) (a + n + 500) - (a + n))
    with (Nat.min 500 (length plainText - (a + n))) by lia.
  rewrite !substring_length.
  refine (conj eq_refl (conj eq_refl (conj _ (conj _ _)))); [lia | lia |].
  intros Hsel. rewrite <- Hsel.
  rewrite <- (substring_split plainText (a - 500) (Nat.min 500 a)).
  replace (a - 500 + Nat.min 500 a) with a by lia.
  now rewrite <- (substring_split plainText a n).
Qed.

Lemma getSelectionMeta_context_windows_witness :
  Page.contextBefore
    (Page.getSelectionMeta (P := Plain.plain) (Some "The quick fox") (4, 9))
  = "The "
  /\ Page.contextAfter
       (Page.getSelectionMeta (P := Plain.plain) (Some "The quick fox") (4, 9))
     = " fox"
  /\ "The " ++ "quick" ++ " fox" = "The quick fox".
Proof.
  destruct (getSelectionMeta_context_windows (P := Plain.plain)
              "The quick fox" (4, 9)) as (H1 & H2 & _ & _ & H3).
  - simpl. lia.
  - refine (conj H1 (conj H2 _)). exact (H3 eq_refl).
Defined.

(** ** More on the math expositor and the classifier *)

(** X3.  Markup without a dollar is returned as it is, and KaTeX is not
    consulted: the result is the same for every KaTeX, also one that
    throws. *)
Theorem renderMath_without_dollar {P : Page.Platform} (html : string) :
  Js.includes "$" html = false ->
  Page.renderMath_try html = Some html /\ Page.renderMath html = html.
Proof.
  intros H.
  assert (E : Page.renderMath_try html = Some html).
  { unfold Page.renderMath_try.
    rewrite (replace_block_none _ html (no_dollar_no_dollars html H)).
    cbn [Page.bind]. now apply replace_inline_plain. }
  split; [exact E|]. unfold Page.renderMath. now rewrite E.
Qed.

Lemma renderMath_without_dollar_witness :
  Page.renderMath_try (P := Plain.plain) "<p>a<br>b</p>" = Some "<p>a<br>b</p>"
  /\ Page.renderMath (P := Plain.plain) "<p>a<br>b</p>" = "<p>a<br>b</p>".
Proof.
  apply (renderMath_without_dollar (P := Plain.plain) "<p>a<br>b</p>").
  reflexivity.
Defined.

(** X4.  The paragraph pattern matches exactly the markup that is a [<p>],
    some content, a [</p>] and then white space only, and captures that
    content. *)
Theorem match_paragraph_spec (html inner : string) :
  Page.match_paragraph html = Some inner
  <-> exists ws, Js.every Js.is_space ws = true
                 /\ html = "<p>" ++ inner ++ "</p>" ++ ws.
Proof.
  split.
  - unfold Page.match_paragraph.
    destruct (trimEnd_split html) as (ws & Hws & Hhtml).
    set (body := Js.trimEnd html) in *.
    destruct (prefix "<p>" body) eqn:Hp; [|discriminate].
    destruct (Js.endsWith "</p>" body) eqn:He; [|discriminate].
    destruct (Nat.leb_spec 7 (length body)) as [H7|]; [|discriminate].
    cbn [andb]. intros [= <-]. exists ws. split; [exact Hws|].
    rewrite Hhtml at 1.
    apply prefix_correct in Hp. cbn [length] in Hp.
    unfold Js.endsWith in He. apply andb_true_iff in He as [_ He].
    apply String.eqb_eq in He. cbn [length] in He.
    assert (Hbody : body = "<p>" ++ substring 3 (length body - 7) body ++ "</p>").
    { assert (E : body = substring 0 3 body
                         ++ substring 3 (length body - 7) body
                         ++ substring (3 + (length body - 7)) 4 body).
      { rewrite (substring_split body 3 (length body - 7) 4).
        pose proof (substring_split body 0 3 (length body - 7 + 4)) as E.
        cbn [Nat.add] in E. rewrite E.
        replace (S (S (S (length body - 7 + 4)))) with (length body) by lia.
        symmetry. apply substring_all. }
      replace (3 + (length body - 7)) with (length body - 4) in E by lia.
      now rewrite Hp, He in E. }
    rewrite Hbody at 1. now rewrite !app_assoc.
  - intros (ws & Hws & ->). now apply match_paragraph_wrapper.
Qed.

Lemma match_paragraph_spec_witness :
  Page.match_paragraph ("<p>" ++ "a<br>b" ++ "</p>" ++ String Js.LF EmptyString)
  = Some "a<br>b".
Proof.
  apply (match_paragraph_spec
           ("<p>" ++ "a<br>b" ++ "</p>" ++ String Js.LF EmptyString) "a<br>b").
  exists (String Js.LF EmptyString). split; reflexivity.
Defined.

(** X5.  White space before and after a replacement does not change its
    fragment. *)
Theorem toInlineAwareHtml_surrounding_space {P : Page.Platform}
  (ws1 text ws2 : string) :
  Js.every Js.is_space ws1 = true ->
  Js.every Js.is_space ws2 = true ->
  Page.toInlineAwareHtml (ws1 ++ text ++ ws2) = Page.toInlineAwareHtml text.
Proof.
  intros H1 H2. unfold Page.toInlineAwareHtml.
  now rewrite (trim_surrounded ws1 text ws2 H1 H2).
Qed.

Lemma toInlineAwareHtml_surrounding_space_witness :
  Page.toInlineAwareHtml (P := Plain.plain) ("  " ++ "brown" ++ " ")
  = Page.toInlineAwareHtml (P := Plain.plain) "brown".
Proof.
  apply (toInlineAwareHtml_surrounding_space (P := Plain.plain) "  " "brown" " ");
    reflexivity.
Defined.

(** X6.  A selection that ends at the start of a text that is not empty is
    [0] of the way through it, and one that ends at its end is [1]. *)
Theorem percentThroughDocument_endpoints {P : Page.Platform}
  (d : Page.Dom) (range : Page.Range) :
  0 < length (Page.innerText d) ->
  let m := Page.getSelectionMeta (Some d) range in
  (Page.end_ m = 0 -> Page.percentThroughDocument m = 0%Q)
  /\ (Page.end_ m = length (Page.innerText d) ->
      (Page.percentThroughDocument m == 1)%Q).
Proof.
  intros Hlen. cbn zeta.
  cbn [Page.getSelectionMeta Page.percentThroughDocument Page.end_].
  set (len := length (Page.innerText d)) in *.
  set (e := length (Page.before_toString d range)
            + length (Page.range_toString d range)).
  destruct (Nat.eqb_spec len 0) as [E|_]; [lia|].
  split; intros ->.
  - reflexivity.
  - assert (Hn : Float.toFixed3 (Float.div (Z.of_nat len) (Z.of_nat len))
                 = 1000%Z).
    { unfold Float.div, Float.toFixed3.
      destruct (round64_unit (Z.of_nat len) (Z.of_nat len) ltac:(lia))
        as (m & sh & -> & Hsh & Hm & _ & _ & Heq).
      cbn [Qnum Qden]. rewrite (Heq eq_refl).
      assert (Hpow : (0 < 2 ^ sh)%Z) by (apply Z.pow_pos_nonneg; lia).
      rewrite Z2Pos.id by lia.
      pose proof (round_half_up_spec (2 ^ sh * 1000) (2 ^ sh) Hpow) as Hn.
      nia. }
    rewrite Hn. vm_compute. reflexivity.
Qed.

Lemma percentThroughDocument_endpoints_witness :
  (Page.percentThroughDocument
     (Page.getSelectionMeta (P := Plain.plain) (Some "abc") (1%nat, 3%nat))
   == 1)%Q.
Proof.
  destruct (percentThroughDocument_endpoints (P := Plain.plain) "abc" (1, 3))
    as [_ H].
  - simpl. lia.
  - apply H. reflexivity.
Defined.

(** ** More on the edit session *)

(** X7.  However the request ends, and whatever happened in between, the
    second half of [submitAi] leaves the popover closed, the loading flag
    off and the prompt empty; it keeps the stored range and the toolbar,
    and the toast it leaves is the one of an applied edit, the failure
    notice, or the toast that was there. *)
Theorem submitAi_settle_finally {P : Page.Platform}
  (markdown_closed : string) (out : Page.FetchOutcome) (s : Page.State P) :
  let s' := Page.submitAi_settle markdown_closed out s in
  Page.aiLoading s' = false
  /\ Page.aiOpen s' = false
  /\ Page.aiPrompt s' = EmptyString
  /\ Page.selectionRangeRef s' = Page.selectionRangeRef s
  /\ Page.toolbar_visible s' = Page.toolbar_visible s
  /\ (Page.toast s' = Some Page.applied_toast
      \/ Page.toast s' = Some Page.failed_toast
      \/ Page.toast s' = Page.toast s).
Proof.
  cbn zeta. unfold Page.submitAi_settle.
  destruct out as [|[|] [data|]];
    try (cbn; repeat split; auto; fail).
  unfold Page.applyAiReplacement.
  destruct (Page.editorRef s), (Page.selectionRangeRef s) eqn:Hr;
    cbn; rewrite ?Hr; repeat split; auto.
Qed.

(** X8.  [submitAi] sends a request exactly when a range is stored, the
    editor is mounted and the prompt is not blank; otherwise it only closes
    the popover.  The request carries the prompt as typed and the markdown
    of the state, and its three lengths agree: [selectionLength], the
    length of [selectedText] and [selection.length]. *)
Theorem submitAi_begin_request {P : Page.Platform} (s : Page.State P) :
  match Page.submitAi_begin s with
  | (s', Some req) =>
      s' = Page.setAiLoading true s
      /\ Page.selectionRangeRef s <> None
      /\ Page.editorRef s <> None
      /\ Js.trim (Page.aiPrompt s) <> EmptyString
      /\ Page.userPrompt req = Page.aiPrompt s
      /\ Page.documentMarkdown req = Page.markdown s
      /\ Page.selectionLength req = length (Page.selectedText req)
      /\ Page.length_ (Page.selection req) = length (Page.selectedText req)
      /\ Page.end_ (Page.selection req)
         = Page.start (Page.selection req) + length (Page.selectedText req)
  | (s', None) =>
      s' = Page.setAiOpen false s
      /\ (Page.selectionRangeRef s = None
          \/ Page.editorRef s = None
          \/ Js.trim (Page.aiPrompt s) = EmptyString)
  end.
Proof.
  unfold Page.submitAi_begin.
  destruct (Page.selectionRangeRef s) as [range|]; [|split; auto].
  destruct (Page.editorRef s) as [d|]; [|split; auto].
  destruct (Js.trim (Page.aiPrompt s)) eqn:Hp; [split; auto|].
  cbn. repeat split; discriminate.
Qed.

(** X9.  Only one level of undo is kept.  After two replacements in a row
    the undo action puts back the markup read before the second one and
    the markdown the second application had closed over; the snapshot of
    the first is gone, and a second click finds nothing to do. *)
Theorem undo_single_level {P : Page.Platform}
  (s : Page.State P) (d : Page.Dom) (range : Page.Range)
  (md1 md2 : string) (rep1 rep2 : option string) :
  Page.editorRef s = Some d ->
  Page.selectionRangeRef s = Some range ->
  let d1 :=
    Page.insertHTML range (Page.toInlineAwareHtml (Js.or_empty rep1)) d in
  let d2 :=
    Page.insertHTML range (Page.toInlineAwareHtml (Js.or_empty rep2)) d1 in
  let s2 :=
    Page.applyAiReplacement md2 rep2 (Page.applyAiReplacement md1 rep1 s) in
  Page.aiUndoRef s2
  = Some {| Page.html := Page.innerHTML d1; Page.markdown_ := md2 |}
  /\ Page.editorRef (Page.clickToastAction s2)
     = Some (Page.set_innerHTML (Page.innerHTML d1) d2)
  /\ Page.markdown (Page.clickToastAction s2) = md2
  /\ Page.clickToastAction (Page.clickToastAction s2) = Page.clickToastAction s2.
Proof.
  intros He Hr. cbn zeta.
  rewrite (applyAiReplacement_applied s d range md1 rep1 He Hr).
  erewrite applyAiReplacement_applied; [|reflexivity|exact Hr].
  repeat split.
Qed.

Lemma undo_single_level_witness :
  Page.editorRef
    (Page.clickToastAction
       (Page.applyAiReplacement (P := Plain.plain) "The brown fox" (Some "red")
          (Page.applyAiReplacement (P := Plain.plain) "The quick fox"
             (Some "brown") (Plain.editing "The quick fox" (4, 9) "colour"))))
  = Some "The brown fox".
Proof.
  destruct (undo_single_level (P := Plain.plain)
              (Plain.editing "The quick fox" (4, 9) "colour")
              "The quick fox" (4, 9) "The quick fox" "The brown fox"
              (Some "brown") (Some "red") eq_refl eq_refl) as (_ & H & _).
  exact H.
Defined.

(** X10.  When the applying callback holds the markdown of the current
    state, that markdown is the one derived from the markup of the editor,
    and the editor gives back the markup it was read from when it is
    assigned again, then undo is exact: markup and markdown are those from
    before the replacement and agree with each other, and snapshot and
    toast are gone. *)
Theorem undo_exact_when_markdown_current {P : Page.Platform}
  (s : Page.State P) (d : Page.Dom) (range : Page.Range)
  (rep : option string) :
  (forall d0,
      Page.innerHTML (Page.set_innerHTML (Page.innerHTML d) d0)
      = Page.innerHTML d) ->
  Page.editorRef s = Some d ->
  Page.selectionRangeRef s = Some range ->
  Page.markdown s = Page.turndown (Page.innerHTML d) ->
  let s' :=
    Page.clickToastAction (Page.applyAiReplacement (Page.markdown s) rep s) in
  exists d',
    Page.editorRef s' = Some d'
    /\ Page.innerHTML d' = Page.innerHTML d
    /\ Page.markdown s' = Page.markdown s
    /\ Page.markdown s' = Page.turndown (Page.innerHTML d')
    /\ Page.aiUndoRef s' = None
    /\ Page.toast s' = None.
Proof.
  intros Hdom He Hr Hmd. cbn zeta.
  destruct (undo_restores_snapshot s d range (Page.markdown s) rep He Hr)
    as (H1 & H2 & H3 & H4).
  eexists. split; [exact H1|].
  split; [apply Hdom|].
  split; [exact H2|].
  split; [rewrite H2, Hdom; exact Hmd|].
  split; assumption.
Qed.

Lemma undo_exact_when_markdown_current_witness :
  exists d',
    Page.editorRef
      (Page.clickToastAction
         (Page.applyAiReplacement (P := Plain.plain) "The quick fox"
            (Some "brown") (Plain.editing "The quick fox" (4, 9) "colour")))
    = Some d'
    /\ d' = "The quick fox".
Proof.
  destruct (undo_exact_when_markdown_current (P := Plain.plain)
              (Plain.editing "The quick fox" (4, 9) "colour")
              "The quick fox" (4, 9) (Some "brown")
              (fun _ => eq_refl) eq_refl eq_refl eq_refl)
    as (d' & H1 & H2 & _).
  exists d'. exact (conj H1 H2).
Defined.

(** X11.  [handleSelection] touches the stored range and the toolbar only.
    A range it stores lies inside the editor, and the toolbar is visible
    afterwards only for such a range that is not collapsed, or while the
    popover is open over a toolbar that was visible. *)
Theorem handleSelection_stores_inside_only {P : Page.Platform}
  (sel : option Page.Range) (s : Page.State P) :
  let s' := Page.handleSelection sel s in
  Page.editorRef s' = Page.editorRef s
  /\ Page.markdown s' = Page.markdown s
  /\ Page.aiUndoRef s' = Page.aiUndoRef s
  /\ Page.toast s' = Page.toast s
  /\ Page.aiPrompt s' = Page.aiPrompt s
  /\ Page.aiOpen s' = Page.aiOpen s
  /\ Page.aiLoading s' = Page.aiLoading s
  /\ (Page.selectionRangeRef s' = Page.selectionRangeRef s
      \/ exists d r, Page.editorRef s = Some d /\ sel = Some r
                     /\ Page.contains_range d r = true
                     /\ Page.selectionRangeRef s' = Some r)
  /\ (Page.toolbar_visible s' = true ->
      exists d r, Page.editorRef s = Some d /\ sel = Some r
                  /\ Page.contains_range d r = true
                  /\ (Page.isCollapsed r = false
                      \/ (Page.aiOpen s = true
                          /\ Page.toolbar_visible s = true))).
Proof.
  cbn zeta. unfold Page.handleSelection.
  destruct sel as [r|], (Page.editorRef s) as [d|] eqn:He;
    try (cbn; rewrite ?He; repeat split; auto; discriminate).
  destruct (Page.contains_range d r) eqn:Hc; cbn [negb].
  2:{ cbn. rewrite ?He. repeat split; auto. discriminate. }
  destruct (Page.isCollapsed r) eqn:Hcol.
  - cbn [Page.aiOpen Page.set_selectionRange].
    destruct (Page.aiOpen s) eqn:Ho; cbn; rewrite ?He, ?Ho;
      repeat split; auto.
    + right. exists d, r. auto.
    + intros Hv. exists d, r. auto 10.
    + right. exists d, r. auto.
    + discriminate.
  - cbn. rewrite ?He. repeat split; auto.
    + right. exists d, r. auto.
    + intros _. exists d, r. auto 10.
Qed.


Lemma handleSelection_stores_inside_only_witness :
  exists d r,
    Page.editorRef (Plain.loaded "abc") = Some d
    /\ Some (1, 2) = Some r
    /\ Page.contains_range (Platform := Plain.plain) d r = true
    /\ (Page.isCollapsed (Platform := Plain.plain) r = false
        \/ (Page.aiOpen (Plain.loaded "abc") = true
            /\ Page.toolbar_visible (Plain.loaded "abc") = true)).
Proof.
  destruct (handleSelection_stores_inside_only (P := Plain.plain)
              (Some (1, 2)) (Plain.loaded "abc"))
    as (_ & _ & _ & _ & _ & _ & _ & _ & H).
  apply H. reflexivity.
Defined.

(** ** The page as a whole *)

Section HomeFacts.

Import Js Page Home.
Context {P : Platform}.
Variable FileHandle : Type.
Variable execFormat : FormatCommand -> option Range -> Dom -> Dom.

Local Ltac ok_split := refine (conj _ (conj _ _)).

Lemma handleSelection_frame_aux (sel : option Range) (s : State P) :
  (editorRef s = None <-> editorRef (handleSelection sel s) = None)
  /\ (aiOpen (handleSelection sel s) = true -> aiOpen s = true)
  /\ (selectionRangeRef s <> None ->
      selectionRangeRef (handleSelection sel s) <> None)
  /\ toast (handleSelection sel s) = toast s
  /\ aiUndoRef (handleSelection sel s) = aiUndoRef s.
Proof.
  unfold handleSelection.
  destruct sel as [r|], (editorRef s) as [d|] eqn:E;
    try (cbn; rewrite ?E; intuition discriminate).
  destruct (contains_range d r); cbn [negb].
  2:{ cbn; rewrite ?E; intuition discriminate. }
  destruct (isCollapsed r); [destruct (aiOpen (set_selectionRange r s)) eqn:Ho|];
    cbn in *; rewrite ?E; intuition discriminate.
Qed.

Lemma submitAi_begin_state (s : State P) :
  fst (submitAi_begin s) = setAiLoading true s
  \/ fst (submitAi_begin s) = setAiOpen false s.
Proof.
  unfold submitAi_begin.
  destruct (selectionRangeRef s), (editorRef s); auto.
  destruct (trim (aiPrompt s)); auto.
Qed.

Lemma submitAi_settle_range (md : string) (out : FetchOutcome) (s : State P) :
  selectionRangeRef (submitAi_settle md out s) = selectionRangeRef s.
Proof.
  unfold submitAi_settle.
  destruct out as [|[|] [data|]]; try reflexivity.
  unfold applyAiReplacement.
  destruct (editorRef s), (selectionRangeRef s) eqn:Hr; cbn;
    now rewrite ?Hr.
Qed.

(** A handler that keeps the editor, does not open the popover and leaves
    toast and snapshot alone keeps [session_ok]. *)
Lemma session_ok_frame (s s' : State P) :
  session_ok s ->
  (editorRef s = None <-> editorRef s' = None) ->
  (aiOpen s' = true -> aiOpen s = true) ->
  (selectionRangeRef s <> None -> selectionRangeRef s' <> None) ->
  toast s' = toast s ->
  aiUndoRef s' = aiUndoRef s ->
  session_ok s'.
Proof.
  intros (He & Ho & Ht) Hed Hop Hra Hto Hun. ok_split.
  - intros E. apply He. now apply Hed.
  - auto.
  - intros t H1 H2. rewrite Hto in H1. rewrite Hun. now apply (Ht t).
Qed.

(** Setting a toast that carries no action keeps [session_ok]. *)
Lemma session_ok_notice (s : State P) (text : string) :
  session_ok s -> session_ok (setToast (Some (notice text)) s).
Proof.
  intros (He & Ho & Ht). ok_split; [exact He | exact Ho |].
  cbn. intros t [= <-] H. cbn in H. congruence.
Qed.

Lemma session_ok_setEditorContent (md : string) (focus : bool) (s : State P) :
  session_ok s -> session_ok (setEditorContentFromMarkdown md focus s).
Proof.
  intros H. unfold setEditorContentFromMarkdown.
  destruct (editorRef s) as [d|] eqn:E; [|exact H].
  apply (session_ok_frame s); cbn; auto. rewrite E. split; discriminate.
Qed.

Lemma session_ok_applyAiReplacement (md : string) (rep : option string)
  (s : State P) :
  session_ok s -> session_ok (applyAiReplacement md rep s).
Proof.
  intros H. unfold applyAiReplacement.
  destruct (editorRef s) as [d|] eqn:E; [|exact H].
  destruct (selectionRangeRef s) as [r|] eqn:Er; [|exact H].
  destruct H as (He & Ho & Ht). ok_split; cbn.
  - discriminate.
  - intros _. rewrite Er. discriminate.
  - intros t [= <-] _. split; discriminate.
Qed.

Lemma session_ok_page_step (e : Event FileHandle) (a : App FileHandle) :
  session_ok (page a) -> session_ok (page (step execFormat e a)).
Proof.
  intros H. destruct e; cbn [step].
  - (* SelectionChange *)
    cbn [with_page page].
    destruct (handleSelection_frame_aux sel (page a)) as (F1 & F2 & F3 & F4 & F5).
    now apply (session_ok_frame (page a)).
  - (* ContextMenu *)
    cbn [with_page page]. unfold handleContextMenu.
    destruct sel as [r|]; [|exact H].
    apply (session_ok_frame (page a)); cbn; auto; try tauto. discriminate.
  - (* AskAi *)
    cbn [with_page page]. unfold openAiPrompt.
    destruct H as (He & Ho & Ht).
    destruct (selectionRangeRef (page a)) as [r0|] eqn:Er.
    + rewrite Er. ok_split; cbn; rewrite ?Er; auto. discriminate.
    + destruct sel as [r|]; cbn [set_selectionRange selectionRangeRef].
      * ok_split; cbn; auto. discriminate.
      * rewrite Er. ok_split; cbn; rewrite ?Er; auto.
        intros t [= <-] Hn. cbn in Hn. congruence.
  - (* PromptChange *)
    cbn [with_page page]. apply (session_ok_frame (page a)); cbn; auto; tauto.
  - (* PromptEscape *)
    cbn [with_page page]. apply (session_ok_frame (page a)); cbn; auto;
      try tauto. discriminate.
  - (* EscapeKey *)
    destruct (aiOpen (page a)); [|exact H].
    cbn [with_page page]. apply (session_ok_frame (page a)); cbn; auto;
      try tauto. discriminate.
  - (* ClickOutside *)
    cbn [with_page page]. unfold clickOutsidePopover.
    destruct (aiOpen (page a)); [|exact H].
    apply (session_ok_frame (page a)); cbn; auto; try tauto. discriminate.
  - (* Input *)
    cbn [with_page page]. unfold userInput, handleInput, updateMarkdownFromEditor.
    cbn [editorRef set_editor].
    apply (session_ok_frame (page a)); cbn; auto.
    destruct H as (He & _). split; [contradiction | discriminate].
  - (* Format *)
    cbn [with_page page]. unfold toggleFormat.
    destruct (editorRef (page a)) as [d|] eqn:E; [|exact H].
    unfold updateMarkdownFromEditor. cbn [editorRef set_editor].
    apply (session_ok_frame (page a)); cbn; auto.
    rewrite E. split; discriminate.
  - (* SubmitBegin *)
    cbn [with_page page].
    destruct (submitAi_begin_state (page a)) as [-> | ->].
    + apply (session_ok_frame (page a)); cbn; auto; tauto.
    + apply (session_ok_frame (page a)); cbn; auto; try tauto. discriminate.
  - (* SubmitSettle *)
    cbn [with_page page]. unfold submitAi_settle.
    assert (Hfin : forall s1, session_ok s1 ->
              session_ok (setAiPrompt EmptyString
                            (setAiOpen false (setAiLoading false s1)))).
    { intros s1 H1. apply (session_ok_frame s1); cbn; auto; try tauto.
      discriminate. }
    assert (Hfail : session_ok (setToast (Some failed_toast) (page a))).
    { destruct H as (He & Ho & Ht). ok_split; cbn; auto.
      intros t [= <-] Hn. cbn in Hn. congruence. }
    apply Hfin.
    destruct out as [|[|] [data|]]; trivial.
    now apply session_ok_applyAiReplacement.
  - (* ToastTimeout *)
    cbn [with_page page]. destruct H as (He & Ho & Ht).
    ok_split; cbn; auto. discriminate.
  - (* ToastClick *)
    cbn [with_page page]. unfold clickToastAction.
    destruct (toast (page a)) as [[m [l|] [[]|]]|] eqn:Et; try exact H.
    cbn [run_action]. unfold undoAiEdit.
    destruct (editorRef (page a)) as [d|] eqn:E; [|exact H].
    destruct (aiUndoRef (page a)) as [snap|] eqn:Eu; [|exact H].
    destruct H as (He & Ho & Ht). ok_split; cbn; auto; discriminate.
  - (* New *)
    unfold handleNew. destruct (isDirty a && negb confirmed); [exact H|].
    cbn [with_page page]. now apply session_ok_setEditorContent.
  - (* Open *)
    unfold handleOpen.
    destruct (showOpenFilePicker env) as [[|[[h [c|]]|]]|];
      try exact H.
    cbn [with_page page]. now apply session_ok_setEditorContent.
  - (* OpenFromInput *)
    unfold handleOpenFromPicker. destruct file as [c|]; [|exact H].
    cbn [with_page page]. now apply session_ok_setEditorContent.
  - (* Save *)
    unfold handleSave_run, save_as_download.
    destruct (showSaveFilePicker env) as [picker|];
      [|now apply session_ok_notice].
    destruct (fileHandleRef a) as [h0|]; [|destruct picker as [|[h|]]];
      try exact H; try (now apply session_ok_notice).
    all: destruct (write_succeeds env _);
      now apply session_ok_notice.
  - (* ToggleTheme *) exact H.
  - (* DraftTimer *) exact H.
  - (* DirtyEffect *) exact H.
Qed.

(** A save was called off, or what it recorded as saved is the markdown
    it held and the markdown of the page is unchanged. *)
Lemma handleSave_run_outcome_aux (md : string) (env : SaveEnv FileHandle)
  (a : App FileHandle) :
  handleSave_run md env a = a
  \/ (savedMarkdownRef (handleSave_run md env a) = md
      /\ markdown (page (handleSave_run md env a)) = markdown (page a)).
Proof.
  unfold handleSave_run, save_as_download.
  destruct (showSaveFilePicker env) as [picker|]; [|right; split; reflexivity].
  destruct (fileHandleRef a) as [h0|]; [|destruct picker as [|[h|]]];
    try (now left); try (right; split; reflexivity).
  all: destruct (write_succeeds env _); right; split; reflexivity.
Qed.

End HomeFacts.

(** X12.  In every state the mounted page reaches, by whatever sequence of
    handlers, effects and request outcomes, the editor is mounted, a range
    is stored while the popover is open, and a toast that carries an action
    has the label of its button and finds a snapshot to restore. *)
Theorem run_keeps_session_ok {P : Page.Platform} (FileHandle : Type)
  (execFormat : Home.FormatCommand -> option Page.Range -> Page.Dom -> Page.Dom)
  (d : Page.Dom) (draft : option string) (storedTheme : option Home.Theme)
  (events : list (Home.Event FileHandle)) :
  Home.session_ok
    (Home.page
       (Home.run execFormat events (Home.mounted FileHandle d draft storedTheme))).
Proof.
  assert (H0 : Home.session_ok
                 (Home.page (Home.mounted FileHandle d draft storedTheme))).
  { refine (conj _ (conj _ _)); cbn; discriminate. }
  revert H0. generalize (Home.mounted FileHandle d draft storedTheme).
  induction events as [|e events IH]; intros a Ha; [exact Ha|].
  cbn [Home.run]. apply IH. now apply session_ok_page_step.
Qed.

(** X13.  No handler clears the stored range: once a range is stored, one
    is stored in every later state. *)
Theorem run_keeps_stored_range {P : Page.Platform} (FileHandle : Type)
  (execFormat : Home.FormatCommand -> option Page.Range -> Page.Dom -> Page.Dom)
  (events : list (Home.Event FileHandle)) (a : Home.App FileHandle) :
  Page.selectionRangeRef (Home.page a) <> None ->
  Page.selectionRangeRef (Home.page (Home.run execFormat events a)) <> None.
Proof.
  revert a. induction events as [|e events IH]; intros a Ha; [exact Ha|].
  cbn [Home.run]. apply IH. clear IH.
  destruct (Page.selectionRangeRef (Home.page a)) as [r0|] eqn:Er;
    [clear Ha|contradiction].
  assert (Hfin : forall s : Page.State P,
             Page.selectionRangeRef s = Some r0 ->
             Page.selectionRangeRef s <> None) by (intros s ->; discriminate).
  destruct e; cbn [Home.step Home.with_page Home.page].
  - destruct (handleSelection_frame_aux sel (Home.page a)) as (_ & _ & F & _).
    apply F. now rewrite Er.
  - unfold Page.handleContextMenu. destruct sel; cbn; [discriminate|].
    now rewrite Er.
  - unfold Page.openAiPrompt. rewrite Er, Er. now apply Hfin.
  - now apply Hfin.
  - now apply Hfin.
  - destruct (Page.aiOpen (Home.page a)); now apply Hfin.
  - unfold Page.clickOutsidePopover.
    destruct (Page.aiOpen (Home.page a)); now apply Hfin.
  - now apply Hfin.
  - unfold Home.toggleFormat.
    destruct (Page.editorRef (Home.page a)); now apply Hfin.
  - destruct (submitAi_begin_state (Home.page a)) as [-> | ->];
      now apply Hfin.
  - rewrite submitAi_settle_range. now rewrite Er.
  - now apply Hfin.
  - unfold Page.clickToastAction, Page.run_action, Page.undoAiEdit.
    destruct (Page.toast (Home.page a)) as [[m [l|] [[]|]]|];
      try (now apply Hfin).
    destruct (Page.editorRef (Home.page a)), (Page.aiUndoRef (Home.page a));
      now apply Hfin.
  - unfold Home.handleNew, Home.setEditorContentFromMarkdown.
    destruct (Home.isDirty a && negb confirmed); [now apply Hfin|].
    cbn. destruct (Page.editorRef (Home.page a)); now apply Hfin.
  - unfold Home.handleOpen, Home.setEditorContentFromMarkdown.
    destruct (Home.showOpenFilePicker env) as [[|[[h [c|]]|]]|];
      cbn; try (now apply Hfin).
    destruct (Page.editorRef (Home.page a)); now apply Hfin.
  - unfold Home.handleOpenFromPicker, Home.setEditorContentFromMarkdown.
    destruct file as [c|]; cbn; try (now apply Hfin).
    destruct (Page.editorRef (Home.page a)); now apply Hfin.
  - unfold Home.handleSave_run, Home.save_as_download.
    destruct (Home.showSaveFilePicker env) as [picker|]; cbn;
      [|now apply Hfin].
    destruct (Home.fileHandleRef a) as [h0|]; [|destruct picker as [|[h|]]];
      cbn; try (now apply Hfin).
    all: destruct (Home.write_succeeds env _); now apply Hfin.
  - now apply Hfin.
  - now apply Hfin.
  - now apply Hfin.
Qed.

Lemma run_keeps_stored_range_witness :
  Page.selectionRangeRef
    (Home.page
       (PlainHome.run
          [Home.SelectionChange None; Home.EscapeKey; Home.New true;
           Home.ToastTimeout]
          (Home.with_page (Page.set_selectionRange (P := Plain.plain) (1, 2))
             (PlainHome.mounted "abc" None None))))
  <> None.
Proof.
  apply (run_keeps_stored_range (P := Plain.plain) nat PlainHome.no_format).
  simpl. discriminate.
Defined.

(** X14.  After the user edits the content, after a formatting command and
    after an applied replacement the markdown of the state is the one
    derived from the markup of the editor. *)
Theorem markdown_follows_editor {P : Page.Platform}
  (execFormat : Home.FormatCommand -> option Page.Range -> Page.Dom -> Page.Dom)
  (s : Page.State P) (d : Page.Dom) :
  Page.editorRef s = Some d ->
  (forall d',
      Page.editorRef (Page.userInput d' s) = Some d'
      /\ Page.markdown (Page.userInput d' s) = Page.turndown (Page.innerHTML d'))
  /\ (forall command sel,
        let s' := Home.toggleFormat execFormat command sel s in
        Page.editorRef s' = Some (execFormat command sel d)
        /\ Page.markdown s'
           = Page.turndown (Page.innerHTML (execFormat command sel d)))
  /\ (forall range md rep,
        Page.selectionRangeRef s = Some range ->
        let s' := Page.applyAiReplacement md rep s in
        exists d', Page.editorRef s' = Some d'
                   /\ Page.markdown s' = Page.turndown (Page.innerHTML d')).
Proof.
  intros He. refine (conj _ (conj _ _)).
  - intros d'. split; reflexivity.
  - intros command sel. cbn zeta. unfold Home.toggleFormat. rewrite He.
    split; reflexivity.
  - intros range md rep Hr. cbn zeta.
    rewrite (applyAiReplacement_applied s d range md rep He Hr).
    eexists. split; reflexivity.
Qed.

Lemma markdown_follows_editor_witness :
  Page.markdown
    (Page.userInput (P := Plain.plain) "The quick red fox"
       (Plain.editing "The quick fox" (4, 9) "colour"))
  = "The quick red fox".
Proof.
  destruct (markdown_follows_editor (P := Plain.plain) PlainHome.no_format
              (Plain.editing "The quick fox" (4, 9) "colour") "The quick fox"
              eq_refl) as (H & _).
  exact (proj2 (H "The quick red fox")).
Defined.

(** X15.  [setEditorContentFromMarkdown] never gives the editor empty
    markup: it assigns the rendered markdown, or the placeholder paragraph
    when the rendering is empty.  It stores the markdown it was given, not a
    markdown derived from the markup, and leaves range, snapshot, toast and
    popover alone. *)
Theorem setEditorContentFromMarkdown_content {P : Page.Platform}
  (md : string) (focus : bool) (s : Page.State P) (d : Page.Dom) :
  Page.editorRef s = Some d ->
  let s' := Home.setEditorContentFromMarkdown md focus s in
  let html := Page.renderMath (Page.marked_parse md) in
  (exists content,
      content <> EmptyString
      /\ Page.editorRef s' = Some (Page.set_innerHTML content d)
      /\ ((html <> EmptyString /\ content = html)
          \/ (html = EmptyString /\ content = "<p><br></p>")))
  /\ Page.markdown s' = md
  /\ Page.selectionRangeRef s' = Page.selectionRangeRef s
  /\ Page.aiUndoRef s' = Page.aiUndoRef s
  /\ Page.toast s' = Page.toast s
  /\ Page.aiOpen s' = Page.aiOpen s.
Proof.
  intros He. cbn zeta. unfold Home.setEditorContentFromMarkdown. rewrite He.
  destruct (Page.renderMath (Page.marked_parse md)) as [|c h] eqn:E.
  - split; [|repeat split].
    exists "<p><br></p>". split; [discriminate|]. split; [reflexivity|].
    right. split; reflexivity.
  - split; [|repeat split].
    exists (String c h). split; [discriminate|]. split; [reflexivity|].
    left. split; [discriminate | reflexivity].
Qed.

Lemma setEditorContentFromMarkdown_content_witness :
  Page.editorRef
    (Home.setEditorContentFromMarkdown (P := Plain.plain) EmptyString true
       (Plain.loaded "old text"))
  <> Some EmptyString
  /\ Page.markdown
       (Home.setEditorContentFromMarkdown (P := Plain.plain) EmptyString true
          (Plain.loaded "old text"))
     = EmptyString.
Proof.
  destruct (setEditorContentFromMarkdown_content (P := Plain.plain)
              EmptyString true (Plain.loaded "old text") "old text" eq_refl)
    as ((content & Hne & He & _) & Hm & _).
  split; [|exact Hm].
  rewrite He. intros [= E]. apply Hne. exact E.
Defined.

(** X16.  Without Ctrl or Cmd a key press runs no command: it only closes
    the popover when the key is Escape and the popover is open.  The
    default action is prevented exactly when one of the six commands runs,
    and the two commands on F and L need Shift as well. *)
Theorem onKeyDown_commands (event : Home.KeyboardEvent) (aiOpen : bool) :
  (Home.metaKey event = false -> Home.ctrlKey event = false ->
   Home.onKeyDown event aiOpen
   = (if (Home.key event =? "Escape")%string && aiOpen
      then Home.ClosePopover else Home.NoShortcut, false))
  /\ (snd (Home.onKeyDown event aiOpen) = true
      <-> fst (Home.onKeyDown event aiOpen) <> Home.ClosePopover
          /\ fst (Home.onKeyDown event aiOpen) <> Home.NoShortcut)
  /\ (fst (Home.onKeyDown event aiOpen) = Home.RunFullscreen
      \/ fst (Home.onKeyDown event aiOpen) = Home.RunTheme ->
      Home.shiftKey event = true)
  /\ (fst (Home.onKeyDown event aiOpen) = Home.ClosePopover -> aiOpen = true).
Proof.
  unfold Home.onKeyDown.
  destruct (Home.metaKey event), (Home.ctrlKey event), (Home.shiftKey event);
    cbn [orb andb];
    repeat match goal with
           | |- context [if (?a =? ?b)%string then _ else _] =>
               destruct (a =? b)%string
           | |- context [(?a =? ?b)%string && _] => destruct (a =? b)%string
           end;
    cbn [andb]; destruct aiOpen; cbn;
    (repeat split; try tauto; try congruence; try discriminate;
     try (intros [? ?]; congruence); try (intros [?|?]; congruence)).
Qed.

Lemma onKeyDown_commands_witness :
  Home.onKeyDown
    {| Home.key := "s"; Home.metaKey := false; Home.ctrlKey := false;
       Home.shiftKey := false |} true
  = (Home.NoShortcut, false).
Proof.
  destruct (onKeyDown_commands
              {| Home.key := "s"; Home.metaKey := false; Home.ctrlKey := false;
                 Home.shiftKey := false |} true) as (H & _).
  exact (H eq_refl eq_refl).
Defined.

(** ** Files, drafts and the theme *)

(** X17.  A save either is given no handle by the picker and changes
    nothing, or it records the markdown it holds as saved and clears the
    dirty flag after exactly one of two things: the markdown was written to
    the file of the handle, which is kept for later saves, or it was
    offered as a download.  The document is not touched. *)
Theorem handleSave_run_outcome {P : Page.Platform} (FileHandle : Type)
  (markdown_closed : string) (env : Home.SaveEnv FileHandle)
  (a : Home.App FileHandle) :
  let a' := Home.handleSave_run markdown_closed env a in
  (Home.fileHandleRef a = None
   /\ Home.showSaveFilePicker env = Some (Home.PickerGives None)
   /\ a' = a)
  \/ (Home.savedMarkdownRef a' = markdown_closed
      /\ Home.isDirty a' = false
      /\ Page.editorRef (Home.page a') = Page.editorRef (Home.page a)
      /\ Page.markdown (Home.page a') = Page.markdown (Home.page a)
      /\ ((exists h,
              Home.write_succeeds env h = true
              /\ Home.fileHandleRef a' = Some h
              /\ Home.written a' = (h, markdown_closed) :: Home.written a
              /\ Home.downloaded a' = Home.downloaded a
              /\ Page.toast (Home.page a')
                 = Some (Home.notice "Saved to file."))
          \/ (Home.written a' = Home.written a
              /\ Home.downloaded a' = markdown_closed :: Home.downloaded a
              /\ Page.toast (Home.page a')
                 = Some (Home.notice "Saved as download.")))).
Proof.
  cbn zeta. unfold Home.handleSave_run, Home.save_as_download.
  destruct (Home.showSaveFilePicker env) as [picker|] eqn:Ep.
  2:{ right. cbn. repeat split. right. repeat split. }
  destruct (Home.fileHandleRef a) as [h0|] eqn:Eh.
  - destruct (Home.write_succeeds env h0) eqn:Ew; right; cbn; repeat split.
    + left. exists h0. repeat split. exact Ew.
    + right. repeat split.
  - destruct picker as [|[h|]].
    + right. cbn. repeat split. right. repeat split.
    + destruct (Home.write_succeeds env h) eqn:Ew; right; cbn; repeat split.
      * left. exists h. repeat split. exact Ew.
      * right. repeat split.
    + left. repeat split.
Qed.

(** X18.  After a file was opened through the picker the page shows its
    text and is clean, and a save writes that text back to the same handle
    without asking the save picker, whatever that picker would answer. *)
Theorem save_after_open_reuses_handle {P : Page.Platform} (FileHandle : Type)
  (a : Home.App FileHandle) (d : Page.Dom) (h : FileHandle) (content : string)
  (open_env : Home.OpenEnv FileHandle) (save_env : Home.SaveEnv FileHandle)
  (picker : Home.Picked FileHandle) :
  Page.editorRef (Home.page a) = Some d ->
  Home.showOpenFilePicker open_env
  = Some (Home.PickerGives (Some (h, Some content))) ->
  Home.showSaveFilePicker save_env = Some picker ->
  Home.write_succeeds save_env h = true ->
  let a1 := Home.handleOpen open_env a in
  let a2 := Home.handleSave save_env a1 in
  Page.markdown (Home.page a1) = content
  /\ Home.savedMarkdownRef a1 = content
  /\ Home.isDirty a1 = false
  /\ Home.fileHandleRef a1 = Some h
  /\ Home.written a2 = (h, content) :: Home.written a
  /\ Home.downloaded a2 = Home.downloaded a
  /\ Home.fileHandleRef a2 = Some h
  /\ Home.isDirty a2 = false.
Proof.
  intros He Hopen Hsave Hw. cbn zeta.
  unfold Home.handleSave, Home.handleSave_run, Home.handleOpen.
  rewrite Hopen, Hsave. cbn.
  unfold Home.setEditorContentFromMarkdown. rewrite He. cbn.
  rewrite Hw. cbn. repeat split.
Qed.

Lemma save_after_open_reuses_handle_witness :
  Home.written
    (Home.handleSave (P := Plain.plain) (PlainHome.picker_gives 9)
       (PlainHome.opened 7 "notes"))
  = [(7, "notes")].
Proof.
  destruct (save_after_open_reuses_handle (P := Plain.plain) nat
              (PlainHome.mounted EmptyString None None) EmptyString 7 "notes"
              {| Home.showOpenFilePicker :=
                   Some (Home.PickerGives (Some (7, Some "notes"))) |}
              (PlainHome.picker_gives 9) (Home.PickerGives (Some 9))
              eq_refl eq_refl eq_refl eq_refl)
    as (_ & _ & _ & _ & H & _).
  exact H.
Defined.

(** X19.  When the draft timer fires the markdown is stored as the draft
    and counts as saved; the next start of the page, in whatever browser
    preferences, brings the same markdown back. *)
Theorem draft_round_trip {P : Page.Platform} (FileHandle : Type)
  (a : Home.App FileHandle) (d : Page.Dom) (prefersDark : bool) :
  let a' := Home.draftTimer a in
  Home.draftItem a' = Some (Page.markdown (Home.page a))
  /\ Home.savedMarkdownRef a' = Page.markdown (Home.page a)
  /\ Home.isDirty a' = false
  /\ Home.page a' = Home.page a
  /\ Page.markdown
       (Home.page
          (Home.startEffect prefersDark
             (Home.mounted FileHandle d (Home.draftItem a') (Home.themeItem a'))))
     = Page.markdown (Home.page a).
Proof.
  cbn zeta. repeat split.
  unfold Home.startEffect. cbn.
  destruct (Page.markdown (Home.page a)) as [|c md]; reflexivity.
Qed.

(** X20.  Toggling the theme twice gives the theme back.  After every
    toggle the stored item and the attribute of the body are the theme of
    the state, and the next start takes that theme whatever the system
    prefers; the preference of the system decides only when nothing is
    stored. *)
Theorem theme_round_trip {P : Page.Platform} (FileHandle : Type)
  (a : Home.App FileHandle) (d : Page.Dom) (draft : option string)
  (forced : option Home.Theme) (prefersDark : bool) :
  let a' := Home.toggleTheme forced a in
  Home.theme (Home.toggleTheme None (Home.toggleTheme None a)) = Home.theme a
  /\ Home.themeItem a' = Some (Home.theme a')
  /\ Home.bodyTheme a' = Some (Home.theme a')
  /\ Home.theme
       (Home.startEffect prefersDark
          (Home.mounted FileHandle d draft (Home.themeItem a')))
     = Home.theme a'
  /\ Home.theme
       (Home.startEffect prefersDark (Home.mounted FileHandle d draft None))
     = (if prefersDark then Home.dark else Home.light).
Proof.
  cbn zeta. refine (conj _ (conj _ (conj _ (conj _ _)))).
  - cbn. destruct (Home.theme a); reflexivity.
  - reflexivity.
  - reflexivity.
  - unfold Home.startEffect. cbn.
    destruct draft as [[|c md]|]; reflexivity.
  - unfold Home.startEffect. cbn.
    destruct draft as [[|c md]|]; reflexivity.
Qed.

(** X21.  The dirty flag, once its effect has run, says whether the
    markdown differs from what was last saved.  It is off after the draft
    timer, after a save of the current markdown that was not called off,
    after a file was opened and after a new document was started; a new
    document that the user declines leaves everything as it was. *)
Theorem dirty_flag {P : Page.Platform} (FileHandle : Type)
  (a : Home.App FileHandle) (d : Page.Dom) :
  Page.editorRef (Home.page a) = Some d ->
  (Home.isDirty (Home.dirtyEffect a) = true
   <-> Page.markdown (Home.page a) <> Home.savedMarkdownRef a)
  /\ Home.isDirty (Home.dirtyEffect (Home.draftTimer a)) = false
  /\ (forall env,
        Home.handleSave env a = a
        \/ Home.isDirty (Home.dirtyEffect (Home.handleSave env a)) = false)
  /\ (forall content,
        Home.isDirty
          (Home.dirtyEffect (Home.handleOpenFromPicker (Some content) a))
        = false)
  /\ (forall confirmed,
        Home.isDirty a = false \/ confirmed = true ->
        let a' := Home.handleNew confirmed a in
        Page.markdown (Home.page a') = EmptyString
        /\ Home.savedMarkdownRef a' = EmptyString
        /\ Home.fileHandleRef a' = None
        /\ Home.isDirty (Home.dirtyEffect a') = false)
  /\ (Home.isDirty a = true -> Home.handleNew false a = a).
Proof.
  intros He. refine (conj _ (conj _ (conj _ (conj _ (conj _ _))))).
  - unfold Home.dirtyEffect. cbn. rewrite negb_true_iff. apply String.eqb_neq.
  - unfold Home.dirtyEffect, Home.draftTimer. cbn.
    now rewrite String.eqb_refl.
  - intros env. unfold Home.handleSave.
    destruct (handleSave_run_outcome_aux FileHandle
                (Page.markdown (Home.page a)) env a) as [E | (Hs & Hm)].
    + now left.
    + right. unfold Home.dirtyEffect. cbn. rewrite Hs, Hm.
      now rewrite String.eqb_refl.
  - intros content. unfold Home.dirtyEffect, Home.handleOpenFromPicker. cbn.
    unfold Home.setEditorContentFromMarkdown. rewrite He. cbn.
    now rewrite String.eqb_refl.
  - intros confirmed Hc. cbn zeta. unfold Home.handleNew.
    assert (E : Home.isDirty a && negb confirmed = false).
    { destruct Hc as [-> | ->]; [reflexivity|]. apply andb_false_r. }
    rewrite E. unfold Home.dirtyEffect. cbn.
    unfold Home.setEditorContentFromMarkdown. rewrite He. cbn.
    repeat split.
  - intros Hd. unfold Home.handleNew. now rewrite Hd.
Qed.

Lemma dirty_flag_witness :
  Home.isDirty
    (Home.dirtyEffect (Home.handleNew true (PlainHome.opened 7 "notes")))
  = false.
Proof.
  destruct (dirty_flag (P := Plain.plain) nat (PlainHome.opened 7 "notes")
              ("<p>notes</p>" ++ String Js.LF EmptyString) eq_refl)
    as (_ & _ & _ & _ & H & _).
  destruct (H true (or_intror eq_refl)) as (_ & _ & _ & Hd).
  exact Hd.
Defined.

(** ** More on the route *)

(** X22.  Without a configured key, with a body that is no JSON, or with
    one of the three required strings missing, the handler answers with an
    error and does not call the model: the response is the same whatever
    the model would do.  The status is 500 for the missing key and 400 for
    the request. *)
Theorem POST_rejects_without_model
  (number : Type) (number_of_nat : nat -> number)
  (number_add : number -> number -> number) (number_toString : number -> string)
  (env : Route.Env) (request_json : option (Route.RequestBody number))
  (model1 model2 : Route.ParseCall -> option Route.ParseResult) :
  (Js.truthy (Route.OPENAI_API_KEY env) = false
   \/ request_json = None
   \/ exists b, request_json = Some b
                /\ (Route.documentText b = None
                    \/ Route.selectedText b = None
                    \/ Route.userPrompt b = None)) ->
  let resp :=
    Route.POST number number_of_nat number_add number_toString
      env request_json model1 in
  resp = Route.POST number number_of_nat number_add number_toString
           env request_json model2
  /\ (exists e, Route.body resp = Route.ErrorBody e)
  /\ (if Js.truthy (Route.OPENAI_API_KEY env)
      then Route.status resp = 400 else Route.status resp = 500).
Proof.
  intros H. cbn zeta. unfold Route.POST.
  destruct (Route.OPENAI_API_KEY env) as [[|c key]|]; cbn [Js.truthy];
    try (repeat split; eexists; reflexivity).
  destruct H as [H | [-> | (b & -> & H)]]; [discriminate| |].
  - repeat split. eexists; reflexivity.
  - destruct (Route.documentText b), (Route.selectedText b),
      (Route.userPrompt b);
      try (repeat split; eexists; reflexivity).
    destruct H as [H | [H | H]]; discriminate.
Qed.

Lemma POST_rejects_without_model_witness :
  Plain.POST_Z {| Route.OPENAI_API_KEY := None; Route.OPENAI_MODEL := None |}
    (Some Plain.body_without_selection) (Plain.model_answers "brown")
  = Plain.POST_Z {| Route.OPENAI_API_KEY := None; Route.OPENAI_MODEL := None |}
      (Some Plain.body_without_selection) (fun _ => None).
Proof.
  apply (POST_rejects_without_model Z Z.of_nat Z.add Plain.show_Z
           {| Route.OPENAI_API_KEY := None; Route.OPENAI_MODEL := None |}
           (Some Plain.body_without_selection)
           (Plain.model_answers "brown") (fun _ => None)).
  left. reflexivity.
Defined.

(** X23.  The status of a response is 200, 400 or 500.  It is 400 exactly
    when the key is configured and the request is no JSON or lacks one of
    the three required strings, and it is 200 exactly when the body carries
    a replacement text; every other response carries an error message. *)
Theorem POST_status_classification
  (number : Type) (number_of_nat : nat -> number)
  (number_add : number -> number -> number) (number_toString : number -> string)
  (env : Route.Env) (request_json : option (Route.RequestBody number))
  (responses_parse : Route.ParseCall -> option Route.ParseResult) :
  let resp :=
    Route.POST number number_of_nat number_add number_toString
      env request_json responses_parse in
  let malformed :=
    match request_json with
    | None => True
    | Some b =>
        Route.documentText b = None
        \/ Route.selectedText b = None
        \/ Route.userPrompt b = None
    end in
  (Route.status resp = 200 \/ Route.status resp = 400
   \/ Route.status resp = 500)
  /\ (Route.status resp = 400
      <-> Js.truthy (Route.OPENAI_API_KEY env) = true /\ malformed)
  /\ (Route.status resp = 200
      <-> exists text, Route.body resp = Route.ReplacementBody text)
  /\ (Route.status resp <> 200
      -> exists e, Route.body resp = Route.ErrorBody e).
Proof.
  cbn zeta. unfold Route.POST.
  destruct (Route.OPENAI_API_KEY env) as [[|c key]|]; cbn [Js.truthy].
  1, 3: (cbn; refine (conj _ (conj _ (conj _ _)));
         [ auto
         | split; [discriminate | intros [H _]; discriminate]
         | split; [discriminate | intros [t H]; discriminate]
         | intros _; eexists; reflexivity ]).
  destruct request_json as [b|].
  2: { cbn; refine (conj _ (conj _ (conj _ _)));
       [ auto
       | split; [auto | reflexivity]
       | split; [discriminate | intros [t H]; discriminate]
       | intros _; eexists; reflexivity ]. }
  destruct (Route.documentText b) as [dt|], (Route.selectedText b) as [st|],
    (Route.userPrompt b) as [up|];
    try (cbn; refine (conj _ (conj _ (conj _ _)));
         [ auto
         | split; [auto | reflexivity]
         | split; [discriminate | intros [t H]; discriminate]
         | intros _; eexists; reflexivity ]).
  cbv zeta.
  match goal with
  | |- context [responses_parse ?call] =>
      destruct (responses_parse call) as [r|]
  end.
  2: { cbn; refine (conj _ (conj _ (conj _ _)));
       [ auto
       | split; [discriminate
                | intros [_ [H | [H | H]]]; discriminate]
       | split; [discriminate | intros [t H]; discriminate]
       | intros _; eexists; reflexivity ]. }
  destruct (Route.read_result r) as [resp|] eqn:E.
  - destruct (read_result_shape r resp E) as (text & _ & ->).
    cbn; refine (conj _ (conj _ (conj _ _)));
      [ auto
      | split; [discriminate
               | intros [_ [H | [H | H]]]; discriminate]
      | split; [intros _; eexists; reflexivity | reflexivity]
      | intros H; contradiction H; reflexivity ].
  - cbn; refine (conj _ (conj _ (conj _ _)));
      [ auto
      | split; [discriminate
               | intros [_ [H | [H | H]]]; discriminate]
      | split; [discriminate | intros [t H]; discriminate]
      | intros _; eexists; reflexivity ].
Qed.

(** X24.  A response with status 200 always comes from a call of the model
    that came back complete with a text that is not empty; it carries that
    text trimmed, so it neither starts nor ends with white space. *)
Theorem POST_success_origin
  (number : Type) (number_of_nat : nat -> number)
  (number_add : number -> number -> number) (number_toString : number -> string)
  (env : Route.Env) (request_json : option (Route.RequestBody number))
  (responses_parse : Route.ParseCall -> option Route.ParseResult) :
  let resp :=
    Route.POST number number_of_nat number_add number_toString
      env request_json responses_parse in
  Route.status resp = 200 ->
  exists call r text,
    responses_parse call = Some r
    /\ Route.apiKey call = Js.or_empty (Route.OPENAI_API_KEY env)
    /\ Route.result_status r <> "incomplete"
    /\ Route.output_parsed r = Some {| Route.replacementText := Some text |}
    /\ text <> EmptyString
    /\ Route.body resp = Route.ReplacementBody (Js.trim text)
    /\ Js.trim (Js.trim text) = Js.trim text.
Proof.
  cbn zeta. unfold Route.POST.
  destruct (Route.OPENAI_API_KEY env) as [[|c key]|]; try discriminate.
  destruct request_json as [b|]; [|discriminate].
  destruct (Route.documentText b), (Route.selectedText b),
    (Route.userPrompt b); try discriminate.
  match goal with
  | |- context [responses_parse ?c] => set (call := c)
  end.
  destruct (responses_parse call) as [r|] eqn:Er; [|discriminate].
  unfold Route.read_result.
  destruct (Route.result_status r =? "incomplete")%string eqn:Es;
    [discriminate|].
  destruct (Route.output_parsed r) as [[[[|c' t]|]]|] eqn:Eo; try discriminate.
  intros _. exists call, r, (String c' t).
  repeat split; trivial.
  - now apply String.eqb_neq.
  - discriminate.
  - apply trim_idempotent.
Qed.

Lemma POST_success_origin_witness :
  exists call r text,
    Plain.model_answers " brown " call = Some r
    /\ Route.apiKey call = Js.or_empty (Route.OPENAI_API_KEY Plain.env_with_key)
    /\ Route.result_status r <> "incomplete"
    /\ Route.output_parsed r = Some {| Route.replacementText := Some text |}
    /\ text <> EmptyString
    /\ Route.body
         (Plain.POST_Z Plain.env_with_key (Some Plain.body_without_selection)
            (Plain.model_answers " brown "))
       = Route.ReplacementBody (Js.trim text)
    /\ Js.trim (Js.trim text) = Js.trim text.
Proof.
  apply (POST_success_origin Z Z.of_nat Z.add Plain.show_Z Plain.env_with_key
           (Some Plain.body_without_selection) (Plain.model_answers " brown ")).
  reflexivity.
Defined.

(** X25.  The body that the page sends always passes the checks of the
    route: with the key configured the route goes on to the model and
    never answers 400, and the position it works with is the metadata of
    the page, none of it a default. *)
Theorem page_request_passes_route {P : Page.Platform}
  (number_toString : Q -> string) (s : Page.State P) (req : Page.AiRequest)
  (env : Route.Env)
  (responses_parse : Route.ParseCall -> option Route.ParseResult) :
  snd (Page.submitAi_begin s) = Some req ->
  Js.truthy (Route.OPENAI_API_KEY env) = true ->
  let b := Wire.body_of_request req in
  let m := Page.selection req in
  Route.position Q Wire.number_of_nat Qplus (Route.selection b)
    (Page.selectedText req)
  = {| Route.pos_start := Wire.number_of_nat (Page.start m);
       Route.pos_end := Wire.number_of_nat (Page.end_ m);
       Route.pos_length := Wire.number_of_nat (Page.length_ m);
       Route.pos_percent := Page.percentThroughDocument m;
       Route.pos_contextBefore := Page.contextBefore m;
       Route.pos_contextAfter := Page.contextAfter m |}
  /\ Route.status
       (Route.POST Q Wire.number_of_nat Qplus number_toString env (Some b)
          responses_parse)
     <> 400
  /\ Route.documentText b <> None
  /\ Route.selectedText b <> None
  /\ Route.userPrompt b = Some (Page.aiPrompt s).
Proof.
  intros Hreq Hkey. cbn zeta.
  split; [reflexivity|]. split; [|split; [discriminate|split; [discriminate|]]].
  - unfold Route.POST.
    destruct (Route.OPENAI_API_KEY env) as [[|c key]|]; try discriminate.
    cbn [Wire.body_of_request Route.documentText Route.selectedText
         Route.userPrompt].
    match goal with
    | |- context [responses_parse ?c] => destruct (responses_parse c) as [r|]
    end; [|discriminate].
    destruct (Route.read_result r) as [resp|] eqn:E; [|discriminate].
    destruct (read_result_shape r resp E) as (t & _ & ->). discriminate.
  - unfold Page.submitAi_begin in Hreq.
    destruct (Page.selectionRangeRef s), (Page.editorRef s); try discriminate.
    destruct (Js.trim (Page.aiPrompt s)); [discriminate|].
    cbn in Hreq. injection Hreq as <-. reflexivity.
Qed.

Lemma page_request_passes_route_witness :
  Route.status
    (Route.POST Q Wire.number_of_nat Qplus (fun _ => EmptyString)
       Plain.env_with_key
       (option_map Wire.body_of_request
          (snd (Page.submitAi_begin (P := Plain.plain)
                  (Plain.editing "The quick fox" (4, 9) "shorten"))))
       (Plain.model_answers "brown"))
  <> 400.
Proof.
  destruct (page_request_passes_route (P := Plain.plain) (fun _ => EmptyString)
              (Plain.editing "The quick fox" (4, 9) "shorten") _
              Plain.env_with_key (Plain.model_answers "brown")
              eq_refl eq_refl) as (_ & H & _).
  exact H.
Defined.
